(** * rwa-payment: the settlement handler of [src/index.ts]

    The repository is a single Cloudflare Worker.  Its [fetch] handler
    authenticates a request, answers [GET /status] from a key-value store and
    settles [POST /pay] orders: it reads a PancakeSwap pair (and, in the
    oracle variant, a Chainlink feed), converts the requested value into an
    amount of ALX with BigInt arithmetic, submits an ERC20 transfer and records
    the outcome under the order identifier.

    Two versions of the handler are verified, which differ in the pricing
    steps only:
    - [Direct]: the pool is read against USDT and [rwa_amount] is a USD value;
    - [Oracle]: [rwa_amount] is a CNY value, converted first with the
      Chainlink CNY/USD answer (8 decimals).

    JavaScript values are embedded as follows: a [bigint] is a [Z], a [number]
    is a binary64 [float] (Rocq's primitive floats, so that the arithmetic of
    the offset multiplier is the IEEE arithmetic the engine performs), a
    string is a [string], a parsed JSON document is a [JsValue].  The handler
    runs in a state-and-exception monad over the key-value store and a log of
    the calls made to the outside world. *)

From Stdlib Require Import ZArith String Ascii List Bool Lia.
From Stdlib Require Import Floats.PrimFloat Floats.SpecFloat Floats.FloatOps Floats.FloatAxioms.
From Stdlib Require Uint63.
From stdpp Require Import gmap strings pretty.

Import ListNotations.
Local Open Scope string_scope.
Local Open Scope list_scope.
Local Open Scope Z_scope.

(** ** JavaScript values *)

(** What [JSON.parse] can produce, plus [undefined] for an absent property. *)
#[warnings="-register-all"] Inductive JsValue : Type :=
| JUndefined
| JNull
| JBool (b : bool)
| JNum (x : float)
| JStr (s : string)
| JArr (items : list JsValue)
| JObj (fields : list (string * JsValue)).

(** Exceptions.  The first constructor is the one the handler raises itself;
    the next four are raised by the language ([BigInt] division by [0n],
    [BigInt] of a non-integral number, destructuring or calling a method of
    [null]/[undefined]); [Raised] stands for whatever a collaborator (request
    body parsing, viem, RPC transport, KV) throws. *)
Inductive Exn : Type :=
| Error (message : string)
| RangeError_DivisionByZero
| RangeError_NotAnInteger
| TypeError_Destructure
| TypeError_NoProperty
| Raised (message : string).

Inductive Res (A : Type) : Type :=
| Ok (a : A)
| Throw (e : Exn).
Arguments Ok {A} a.
Arguments Throw {A} e.

Definition res_bind {A B} (r : Res A) (k : A -> Res B) : Res B :=
  match r with
  | Ok a => k a
  | Throw e => Throw e
  end.

(** ToBoolean: [!v] is [negb (truthy v)]. *)
Definition truthy (v : JsValue) : bool :=
  match v with
  | JUndefined | JNull => false
  | JBool b => b
  | JNum x => negb (PrimFloat.eqb x 0 || PrimFloat.is_nan x)
  | JStr s => negb (s =? "")%string
  | JArr _ | JObj _ => true
  end.

Definition is_undefined (v : JsValue) : bool :=
  match v with
  | JUndefined => true
  | _ => false
  end.

(** Property read [o.k] on a parsed object; [undefined] when [k] is not a
    member.  [JSON.parse] keeps the last of several members of one name. *)
Definition lookup_field (k : string) (fields : list (string * JsValue)) : JsValue :=
  match find (fun member => (fst member =? k)%string) (rev fields) with
  | Some (_, v) => v
  | None => JUndefined
  end.

(** [const { address, rwa_amount, offset, order } = body].  Destructuring
    [null] or [undefined] throws; a primitive or an array has none of the four
    properties. *)
Definition destructure (body : JsValue) : Res (JsValue * JsValue * JsValue * JsValue) :=
  match body with
  | JUndefined | JNull => Throw TypeError_Destructure
  | JObj fields =>
      Ok (lookup_field "address" fields, lookup_field "rwa_amount" fields,
          lookup_field "offset" fields, lookup_field "order" fields)
  | _ => Ok (JUndefined, JUndefined, JUndefined, JUndefined)
  end.

(** ** Strings *)

(** [String.prototype.toLowerCase] on the ASCII range, which is where chain
    addresses (["0x"] followed by 40 hexadecimal digits) live. *)
Definition lower_ascii (c : ascii) : ascii :=
  let n := nat_of_ascii c in
  if ((65 <=? n)%nat && (n <=? 90)%nat)%bool then ascii_of_nat (n + 32) else c.

Fixpoint toLowerCase (s : string) : string :=
  match s with
  | EmptyString => EmptyString
  | String c rest => String (lower_ascii c) (toLowerCase rest)
  end.

(** ** Numbers *)

(** [BigInt(Math.floor(y))].  [Math.floor] of a finite double is an integral
    double and its conversion to [bigint] is exact, so the two calls are
    modelled together on the decomposition [mantissa * 2^exponent] of [y];
    [Math.floor] leaves NaN and the infinities unchanged and [BigInt] rejects
    them with a RangeError. *)
Definition BigInt_floor (y : float) : Res Z :=
  match Prim2SF y with
  | S754_zero _ => Ok 0
  | S754_finite sign m e =>
      let v := if sign then Z.neg m else Z.pos m in
      Ok (if 0 <=? e then v * 2 ^ e else v / 2 ^ (- e))
  | S754_infinity _ | S754_nan => Throw RangeError_NotAnInteger
  end.

(** BigInt division [a / b]: truncates toward zero, throws on [b = 0n]. *)
Definition bigint_div (a b : Z) : Res Z :=
  if b =? 0 then Throw RangeError_DivisionByZero else Ok (a ÷ b).

(** ** The worker's surroundings *)

(** [interface Env], without the [DB] binding (the store is part of the
    state the handler runs in).  [ETH_RPC] and [CHAINLINK_ORACLE_ADDRESS] are
    only read by the oracle variant. *)
Record Env : Type := {
  API_KEY : string;
  PRIVATE_KEY : string;
  CHAIN_ID : string;
  BSC_RPC : string;
  ETH_RPC : string;
  ALX_CONTRACT_ADDRESS : string;
  USDT_CONTRACT_ADDRESS : string;
  PAIR_ADDRESS : string;
  CHAINLINK_ORACLE_ADDRESS : string
}.

(** The parts of a [Request] the handler looks at. *)
Record Request : Type := {
  header_X_API_KEY : option string;  (* request.headers.get('X-API-KEY') *)
  method : string;                   (* request.method *)
  pathname : string;                 (* new URL(request.url).pathname *)
  searchParam_order : option string; (* url.searchParams.get('order') *)
  json : Res JsValue                 (* await request.json() *)
}.

(** The object literals handed to [jsonResp], one constructor per shape. *)
Inductive Payload : Type :=
| P_error (error : string)      (* { error: '...' } *)
| P_record (record : JsValue)   (* the stored record *)
| P_not_found                   (* { status: 'not_found' } *)
| P_duplicate (data : JsValue)  (* { msg: 'Duplicate request', data: existing } *)
| P_success (data : JsValue)    (* { code: 200, data: resultData } *)
| P_failure (e : Exn).          (* { error: e.message, stack: e.stack } *)

Record Response : Type := { payload : Payload; status : Z }.

Definition jsonResp (data : Payload) (status : Z) : Response :=
  {| payload := data; status := status |}.

Inductive Chain : Type := bsc | bscTestnet | mainnet.

(** [createPublicClient({ chain, transport: http(url) })] and
    [createWalletClient({ account, chain, transport: http(url) })]. *)
Record PublicClient : Type := { pc_chain : Chain; pc_transport : string }.
Record WalletClient : Type :=
  { wc_account : string; wc_chain : Chain; wc_transport : string }.

(** Calls that leave the worker, in the order they are made. *)
Inductive Event : Type :=
| KvGet (key : string)
| KvPut (key : string) (value : JsValue)
| ReadContract (client : PublicClient) (address functionName : string)
| WriteContract (client : WalletClient) (address : string) (to : JsValue) (amount : Z).

(** Everything the handler obtains from outside its own text: the parts of
    the ECMAScript runtime that are not modelled above, viem, the chain behind
    the RPC endpoints and the faults of the KV binding.  A [Throw] is a thrown
    exception or a rejected promise. *)
Record World : Type := {
  Number_toString : float -> string;       (* Number.prototype.toString *)
  StringToNumber : string -> float;        (* Number(s) for a string s *)
  Object_toString : JsValue -> Res string; (* ToString of an array or object *)
  Date_now : float;
  parseEther : string -> Res Z;
  formatUnits : Z -> Z -> string;
  privateKeyToAccount : string -> Res string;
  rpc_getReserves : PublicClient -> string -> Res (Z * Z * Z);
  rpc_token0 : PublicClient -> string -> Res string;
  rpc_latestRoundData : PublicClient -> string -> Res (Z * Z * Z * Z * Z);
  rpc_transfer : WalletClient -> string -> JsValue -> Z -> Res string;
  kv_get_fault : string -> option Exn;
  kv_put_fault : string -> JsValue -> option Exn
}.

(** The store (parsed JSON values by key: what [DB.get(k, { type: 'json' })]
    returns for what [DB.put(k, JSON.stringify(v))] wrote) and the log. *)
Record Sys : Type := { db : gmap string JsValue; log : list Event }.

Definition M (A : Type) : Type := Sys -> Res A * Sys.

Definition ret {A} (a : A) : M A := fun σ => (Ok a, σ).

Definition throw {A} (e : Exn) : M A := fun σ => (Throw e, σ).

Definition bind {A B} (m : M A) (k : A -> M B) : M B :=
  fun σ =>
    match m σ with
    | (Ok a, σ') => k a σ'
    | (Throw e, σ') => (Throw e, σ')
    end.

Definition lift {A} (r : Res A) : M A := fun σ => (r, σ).

Definition emit (ev : Event) : M unit :=
  fun σ => (Ok tt, {| db := db σ; log := log σ ++ [ev] |}).

(** [try { m } catch (e) { h e }] *)
Definition try_catch {A} (m : M A) (h : Exn -> M A) : M A :=
  fun σ =>
    match m σ with
    | (Ok a, σ') => (Ok a, σ')
    | (Throw e, σ') => h e σ'
    end.

Declare Scope js_scope.
Delimit Scope js_scope with js.
Notation "'let*' x ':=' m 'in' k" := (bind m (fun x => k))
  (at level 10, x name, m at level 100, k at level 200) : js_scope.
Notation "'let*' ' pat ':=' m 'in' k" :=
  (bind m (fun x => match x with pat => k end))
  (at level 10, pat pattern, m at level 100, k at level 200) : js_scope.
Notation "'do' m 'in' k" := (bind m (fun _ => k))
  (at level 10, m at level 100, k at level 200) : js_scope.

(** [Promise.all]: every promise has been created (its call has been made)
    before the first is awaited; the result is the tuple of values or a
    rejection.  Which rejection surfaces when several promises reject depends
    on timing; the first in array order is taken. *)
Definition Promise_all2 {A B} (p1 : Res A) (p2 : Res B) : Res (A * B) :=
  match p1, p2 with
  | Ok a, Ok b => Ok (a, b)
  | Throw e, _ => Throw e
  | _, Throw e => Throw e
  end.

Definition Promise_all3 {A B C} (p1 : Res A) (p2 : Res B) (p3 : Res C)
  : Res (A * B * C) :=
  match p1, p2, p3 with
  | Ok a, Ok b, Ok c => Ok (a, b, c)
  | Throw e, _, _ => Throw e
  | _, Throw e, _ => Throw e
  | _, _, Throw e => Throw e
  end.

(** The two versions of the handler. *)
Inductive Variant : Type := Direct | Oracle.

(** ** The handler *)

Section Handler.

Variable w : World.
Variable env : Env.

Local Open Scope js_scope.

(** ToString, as applied to a key handed to the KV binding. *)
Definition ToString (v : JsValue) : Res string :=
  match v with
  | JUndefined => Ok "undefined"
  | JNull => Ok "null"
  | JBool true => Ok "true"
  | JBool false => Ok "false"
  | JNum x => Ok (Number_toString w x)
  | JStr s => Ok s
  | JArr _ | JObj _ => Object_toString w v
  end.

(** [v.toString()] *)
Definition toString_method (v : JsValue) : Res string :=
  match v with
  | JUndefined | JNull => Throw TypeError_NoProperty
  | _ => ToString v
  end.

(** [Number(v)] *)
Definition Number (v : JsValue) : Res float :=
  match v with
  | JUndefined => Ok nan
  | JNull => Ok 0%float
  | JBool true => Ok 1%float
  | JBool false => Ok 0%float
  | JNum x => Ok x
  | JStr s => Ok (StringToNumber w s)
  | JArr _ | JObj _ =>
      res_bind (Object_toString w v) (fun s => Ok (StringToNumber w s))
  end.

(** [await env.DB.get(key, { type: 'json' })]: [null] for an absent key. *)
Definition DB_get (key : string) : M JsValue :=
  do emit (KvGet key) in
  match kv_get_fault w key with
  | Some e => throw e
  | None => fun σ => (Ok (default JNull (db σ !! key)), σ)
  end.

(** [await env.DB.put(key, JSON.stringify(value))] *)
Definition DB_put (key : string) (value : JsValue) : M unit :=
  do emit (KvPut key value) in
  match kv_put_fault w key value with
  | Some e => throw e
  | None => fun σ => (Ok tt, {| db := <[key := value]> (db σ); log := log σ |})
  end.

(** [client.readContract({ address, abi, functionName })]: the call is made
    and a promise is returned. *)
Definition readContract {A} (client : PublicClient) (address functionName : string)
    (outcome : Res A) : M (Res A) :=
  do emit (ReadContract client address functionName) in
  ret outcome.

(** [await walletClient.writeContract({ address, abi, functionName:
    'transfer', args: [to, amount] })] *)
Definition writeContract (client : WalletClient) (address : string)
    (to : JsValue) (amount : Z) : M string :=
  do emit (WriteContract client address to amount) in
  lift (rpc_transfer w client address to amount).

(** [env.CHAIN_ID === '97' ? bscTestnet : bsc] and the clients built on it. *)
Definition targetChain : Chain :=
  if (CHAIN_ID env =? "97")%string then bscTestnet else bsc.

Definition publicClient : PublicClient :=
  {| pc_chain := targetChain; pc_transport := BSC_RPC env |}.

Definition walletClient (account : string) : WalletClient :=
  {| wc_account := account; wc_chain := targetChain; wc_transport := BSC_RPC env |}.

Definition ethClient : PublicClient :=
  {| pc_chain := mainnet; pc_transport := ETH_RPC env |}.

(** The [if]/[else] that tells the ALX reserve from the USDT reserve
    (index.ts:104-110): [(alxReserve, usdtReserve)]. *)
Definition resolve_reserves (token0 : string) (reserve0 reserve1 : Z) : Z * Z :=
  if (toLowerCase token0 =? toLowerCase (ALX_CONTRACT_ADDRESS env))%string
  then (reserve0, reserve1)
  else (reserve1, reserve0).

(** [parseEther(rwa_amount.toString())] *)
Definition rwaAmountBigInt (rwa_amount : JsValue) : Res Z :=
  res_bind (toString_method rwa_amount) (parseEther w).

(** The pure steps between the reads and the transfer.  [price_resolver]
    is the destructuring of the reserves, the resolution and the empty-pool
    check; [convert_direct] and [convert_oracle] are the BigInt arithmetic of
    the two versions. *)
Definition price_resolver (reserves : Z * Z * Z) (token0 : string) : Res (Z * Z) :=
  let '(reserve0, reserve1, _) := reserves in
  let '(alxReserve, usdtReserve) := resolve_reserves token0 reserve0 reserve1 in
  if alxReserve =? 0 then Throw (Error "Liquidity pool is empty")
  else Ok (alxReserve, usdtReserve).

Definition convert_direct (rwaAmountBigInt alxReserve usdtReserve : Z) : Res Z :=
  bigint_div (rwaAmountBigInt * alxReserve) usdtReserve.

Definition convert_oracle (rwaAmountBigInt cnyToUsdRate alxReserve usdtReserve : Z)
  : Res Z :=
  let usdtAmount := (rwaAmountBigInt * cnyToUsdRate) ÷ 100000000 in
  bigint_div (usdtAmount * alxReserve) usdtReserve.

(** Steps 3 and 4 of the direct version up to the offset (index.ts:83-124):
    the two pool reads issued together, then the pure steps. *)
Definition quote_direct (rwa_amount : JsValue) : M Z :=
  let* p1 := readContract publicClient (PAIR_ADDRESS env) "getReserves"
               (rpc_getReserves w publicClient (PAIR_ADDRESS env)) in
  let* p2 := readContract publicClient (PAIR_ADDRESS env) "token0"
               (rpc_token0 w publicClient (PAIR_ADDRESS env)) in
  let* '(reserves, token0) := lift (Promise_all2 p1 p2) in
  let* '(alxReserve, usdtReserve) := lift (price_resolver reserves token0) in
  let* rwaAmountBigInt := lift (rwaAmountBigInt rwa_amount) in
  lift (convert_direct rwaAmountBigInt alxReserve usdtReserve).

(** The same steps in the oracle version (lines 96-153 of its file): a
    third read, on the Ethereum client, whose [answer] is the CNY/USD rate. *)
Definition quote_oracle (rwa_amount : JsValue) : M Z :=
  let* p1 := readContract publicClient (PAIR_ADDRESS env) "getReserves"
               (rpc_getReserves w publicClient (PAIR_ADDRESS env)) in
  let* p2 := readContract publicClient (PAIR_ADDRESS env) "token0"
               (rpc_token0 w publicClient (PAIR_ADDRESS env)) in
  let* p3 := readContract ethClient (CHAINLINK_ORACLE_ADDRESS env) "latestRoundData"
               (rpc_latestRoundData w ethClient (CHAINLINK_ORACLE_ADDRESS env)) in
  let* '(reserves, token0, oracleData) := lift (Promise_all3 p1 p2 p3) in
  let '(_, answer, _, _, _) := oracleData in
  let cnyToUsdRate := answer in
  let* '(alxReserve, usdtReserve) := lift (price_resolver reserves token0) in
  let* rwaAmountBigInt := lift (rwaAmountBigInt rwa_amount) in
  lift (convert_oracle rwaAmountBigInt cnyToUsdRate alxReserve usdtReserve).

Definition quote (v : Variant) : JsValue -> M Z :=
  match v with
  | Direct => quote_direct
  | Oracle => quote_oracle
  end.

(** [BigInt(Math.floor((1 + Number(offset) / 100) * 10000))]
    (index.ts:128-129) *)
Definition multiplier (offset : JsValue) : Res Z :=
  res_bind (Number offset) (fun offsetPercent =>
    BigInt_floor ((1 + offsetPercent / 100) * 10000)%float).

(** [sendAmount = (sendAmount * multiplier) / 10000n] (index.ts:130) *)
Definition apply_offset (sendAmount multiplier : Z) : Z :=
  (sendAmount * multiplier) ÷ 10000.

(** [!address || !rwa_amount || !order || offset === undefined]
    (index.ts:48) *)
Definition missing_parameters (address rwa_amount offset order : JsValue) : bool :=
  negb (truthy address) || negb (truthy rwa_amount) || negb (truthy order)
  || is_undefined offset.

(** The record written under the order (index.ts:142-148). *)
Definition resultData (txHash : string) (sendAmount : Z) (rwa_amount : JsValue) : JsValue :=
  JObj [("status", JStr "success");
        ("tx_hash", JStr txHash);
        ("alx_sent", JStr (formatUnits w sendAmount 18));
        ("rwa_value", rwa_amount);
        ("timestamp", JNum (Date_now w))].

(** Route C after the idempotency check: steps 2 to 6 of the [try] block
    (index.ts:58-152). *)
Definition settle (v : Variant) (address rwa_amount offset : JsValue) (key : string)
  : M Response :=
  let* account := lift (privateKeyToAccount w (PRIVATE_KEY env)) in
  let* sendAmount := quote v rwa_amount in
  let* multiplier := lift (multiplier offset) in
  let sendAmount := apply_offset sendAmount multiplier in
  let* txHash :=
    writeContract (walletClient account) (ALX_CONTRACT_ADDRESS env) address sendAmount in
  let resultData := resultData txHash sendAmount rwa_amount in
  do DB_put key resultData in
  ret (jsonResp (P_success resultData) 200).

(** Route C, the body of the [try] block up to the idempotency check
    (index.ts:45-56).  [order] is coerced to the same key by [DB.get] and by
    [DB.put]. *)
Definition pay (v : Variant) (request : Request) : M Response :=
  let* body := lift (json request) in
  let* '(address, rwa_amount, offset, order) := lift (destructure body) in
  if missing_parameters address rwa_amount offset order
  then ret (jsonResp (P_error "Missing parameters") 400)
  else
    let* key := lift (ToString order) in
    let* existing := DB_get key in
    if truthy existing
    then ret (jsonResp (P_duplicate existing) 200)
    else settle v address rwa_amount offset key.

(** [!apiKey || apiKey !== env.API_KEY] (index.ts:27-30) *)
Definition unauthorized (apiKey : option string) : bool :=
  match apiKey with
  | None => true
  | Some k => (k =? "")%string || negb (k =? API_KEY env)%string
  end.

(** Route B: [GET /status?order=xxx] (index.ts:35-40); not inside a [try]. *)
Definition status_route (request : Request) : M Response :=
  match searchParam_order request with
  | None => ret (jsonResp (P_error "Missing order") 400)
  | Some order =>
      if (order =? "")%string then ret (jsonResp (P_error "Missing order") 400)
      else
        let* record := DB_get order in
        ret (if truthy record then jsonResp (P_record record) 200
             else jsonResp P_not_found 404)
  end.

(** [async fetch(request, env, ctx)] (index.ts:25-160). *)
Definition fetch (v : Variant) (request : Request) : M Response :=
  if unauthorized (header_X_API_KEY request)
  then ret (jsonResp (P_error "Unauthorized: Invalid API Key") 401)
  else if (method request =? "GET")%string && (pathname request =? "/status")%string
  then status_route request
  else if (method request =? "POST")%string && (pathname request =? "/pay")%string
  then try_catch (pay v request) (fun e => ret (jsonResp (P_failure e) 500))
  else ret (jsonResp (P_error "Not found") 404).

(** *** The handler's runs, stage by stage

    The definitions below do not come from the source: they name the
    situations the statements are about and spell out, as plain data, what a
    run of [fetch] does in them. *)

(** [σ] after the calls [evs]. *)
Definition logged (σ : Sys) (evs : list Event) : Sys :=
  {| db := db σ; log := log σ ++ evs |}.

(** An authenticated [POST /pay] whose body parses and destructures. *)
Record PayCall (request : Request) (address rwa_amount offset order : JsValue)
  : Prop := {
  call_authorized : unauthorized (header_X_API_KEY request) = false;
  call_method : method request = "POST";
  call_pathname : pathname request = "/pay";
  call_body : res_bind (json request) destructure = Ok (address, rwa_amount, offset, order)
}.

(** A call that passes the field check and whose order identifier is the
    key [key]. *)
Record ValidPay (request : Request) (address rwa_amount offset order : JsValue)
    (key : string) : Prop := {
  vp_call : PayCall request address rwa_amount offset order;
  vp_fields : missing_parameters address rwa_amount offset order = false;
  vp_key : ToString order = Ok key
}.

(** A valid payment whose order has no outcome in the store yet: the
    lookup succeeds and returns [null] (or a falsy value). *)
Record FreshOrder (request : Request) (σ : Sys)
    (address rwa_amount offset order : JsValue) (key : string) : Prop := {
  fresh_valid : ValidPay request address rwa_amount offset order key;
  fresh_lookup : kv_get_fault w key = None;
  fresh_absent : truthy (default JNull (db σ !! key)) = false
}.

(** The read calls of [quote], in the order they are issued. *)
Definition pool_reads (v : Variant) : list Event :=
  [ReadContract publicClient (PAIR_ADDRESS env) "getReserves";
   ReadContract publicClient (PAIR_ADDRESS env) "token0"]
  ++ match v with
     | Direct => []
     | Oracle => [ReadContract ethClient (CHAINLINK_ORACLE_ADDRESS env) "latestRoundData"]
     end.

(** The reads succeed: the pool returns [reserves] and [token0], and in the
    oracle version the feed returns [answer]. *)
Definition PoolReads (v : Variant) (reserves : Z * Z * Z) (token0 : string)
    (answer : Z) : Prop :=
  rpc_getReserves w publicClient (PAIR_ADDRESS env) = Ok reserves
  /\ rpc_token0 w publicClient (PAIR_ADDRESS env) = Ok token0
  /\ match v with
     | Direct => True
     | Oracle =>
         exists roundId startedAt updatedAt answeredInRound,
           rpc_latestRoundData w ethClient (CHAINLINK_ORACLE_ADDRESS env)
           = Ok (roundId, answer, startedAt, updatedAt, answeredInRound)
     end.

(** The conversion of either version. *)
Definition convert (v : Variant) (scaled answer alxReserve usdtReserve : Z) : Res Z :=
  match v with
  | Direct => convert_direct scaled alxReserve usdtReserve
  | Oracle => convert_oracle scaled answer alxReserve usdtReserve
  end.

(** The value of [quote]: what the awaited reads and the pure steps give. *)
Definition quoted (v : Variant) (rwa_amount : JsValue) : Res Z :=
  match v with
  | Direct =>
      res_bind (Promise_all2 (rpc_getReserves w publicClient (PAIR_ADDRESS env))
                             (rpc_token0 w publicClient (PAIR_ADDRESS env)))
        (fun '(reserves, token0) =>
      res_bind (price_resolver reserves token0) (fun '(alxReserve, usdtReserve) =>
      res_bind (rwaAmountBigInt rwa_amount) (fun scaled =>
      convert_direct scaled alxReserve usdtReserve)))
  | Oracle =>
      res_bind (Promise_all3 (rpc_getReserves w publicClient (PAIR_ADDRESS env))
                             (rpc_token0 w publicClient (PAIR_ADDRESS env))
                             (rpc_latestRoundData w ethClient (CHAINLINK_ORACLE_ADDRESS env)))
        (fun '(reserves, token0, oracleData) =>
      let '(_, answer, _, _, _) := oracleData in
      res_bind (price_resolver reserves token0) (fun '(alxReserve, usdtReserve) =>
      res_bind (rwaAmountBigInt rwa_amount) (fun scaled =>
      convert_oracle scaled answer alxReserve usdtReserve)))
  end.

(** The run of [fetch] on a fresh order, case by case on what the
    collaborators answer. *)
Definition settlement (v : Variant) (address rwa_amount offset : JsValue)
    (key : string) (σ : Sys) : Res Response * Sys :=
  match privateKeyToAccount w (PRIVATE_KEY env) with
  | Throw e => (Ok (jsonResp (P_failure e) 500), logged σ [KvGet key])
  | Ok account =>
  match quoted v rwa_amount with
  | Throw e => (Ok (jsonResp (P_failure e) 500), logged σ (KvGet key :: pool_reads v))
  | Ok s =>
  match multiplier offset with
  | Throw e => (Ok (jsonResp (P_failure e) 500), logged σ (KvGet key :: pool_reads v))
  | Ok m =>
  let amount := apply_offset s m in
  let submit := WriteContract (walletClient account) (ALX_CONTRACT_ADDRESS env) address amount in
  match rpc_transfer w (walletClient account) (ALX_CONTRACT_ADDRESS env) address amount with
  | Throw e =>
      (Ok (jsonResp (P_failure e) 500), logged σ (KvGet key :: pool_reads v ++ [submit]))
  | Ok txHash =>
  let outcome := resultData txHash amount rwa_amount in
  let calls := KvGet key :: pool_reads v ++ [submit; KvPut key outcome] in
  match kv_put_fault w key outcome with
  | Some e => (Ok (jsonResp (P_failure e) 500), logged σ calls)
  | None =>
      (Ok (jsonResp (P_success outcome) 200),
       {| db := <[key := outcome]> (db σ); log := log σ ++ calls |})
  end end end end end.

(** A stage of the pipeline throws before the outcome is recorded: the
    derivation of the signing account, the pricing reads or the conversion,
    the offset multiplier, or the transfer submission. *)
Inductive StageFails (v : Variant) (address rwa_amount offset : JsValue) : Exn -> Prop :=
| account_fails e :
    privateKeyToAccount w (PRIVATE_KEY env) = Throw e ->
    StageFails v address rwa_amount offset e
| pricing_fails account e :
    privateKeyToAccount w (PRIVATE_KEY env) = Ok account ->
    quoted v rwa_amount = Throw e ->
    StageFails v address rwa_amount offset e
| offset_fails account s e :
    privateKeyToAccount w (PRIVATE_KEY env) = Ok account ->
    quoted v rwa_amount = Ok s ->
    multiplier offset = Throw e ->
    StageFails v address rwa_amount offset e
| transfer_fails account s m e :
    privateKeyToAccount w (PRIVATE_KEY env) = Ok account ->
    quoted v rwa_amount = Ok s ->
    multiplier offset = Ok m ->
    rpc_transfer w (walletClient account) (ALX_CONTRACT_ADDRESS env) address
      (apply_offset s m) = Throw e ->
    StageFails v address rwa_amount offset e.

End Handler.

(** ** A concrete world for closed examples

    [plain_world] instantiates the collaborators so that closed runs can be
    evaluated.  Its runtime and viem functions cover plain decimal literals
    (sign, digits, optional fraction, no exponent): [plain_StringToNumber]
    rounds them to the nearest double, [plain_parseUnits] scales them when
    the fraction fits in [decimals] digits and reports a failure where viem
    would round, and [plain_Number_toString] prints integral doubles below
    2^53.  The examples stay inside that fragment.  The wallet client
    refuses an amount that is not a [uint256], as viem does when it encodes
    the call; every other call succeeds. *)

Definition digit_of_ascii (c : ascii) : option Z :=
  let n := nat_of_ascii c in
  if ((48 <=? n)%nat && (n <=? 57)%nat)%bool then Some (Z.of_nat n - 48) else None.

(** Reads a run of decimal digits: the number read so far and the count of
    digits; [None] on any other character. *)
Fixpoint read_digits (s : string) (acc : Z) (count : nat) : option (Z * nat) :=
  match s with
  | EmptyString => Some (acc, count)
  | String c rest =>
      match digit_of_ascii c with
      | Some d => read_digits rest (10 * acc + d) (S count)
      | None => None
      end
  end.

(** Splits at the first ['.']. *)
Fixpoint split_dot (s : string) : string * option string :=
  match s with
  | EmptyString => (EmptyString, None)
  | String c rest =>
      if Ascii.eqb c "."%char then (EmptyString, Some rest)
      else let '(i, f) := split_dot rest in (String c i, f)
  end.

Definition plain_parseUnits (decimals : nat) (value : string) : Res Z :=
  let '(negative, magnitude) :=
    match value with
    | String "-"%char rest => (true, rest)
    | _ => (false, value)
    end in
  let '(integer, fraction) := split_dot magnitude in
  match read_digits integer 0 0, read_digits (default EmptyString fraction) 0 0 with
  | Some (i, _), Some (f, n) =>
      if (n <=? decimals)%nat
      then let r := i * 10 ^ Z.of_nat decimals + f * 10 ^ Z.of_nat (decimals - n) in
           Ok (if negative then - r else r)
      else Throw (Raised "more fractional digits than decimals")
  | _, _ => Throw (Raised "InvalidDecimalNumberError")
  end.

Definition plain_parseEther : string -> Res Z := plain_parseUnits 18.

(** [digits n r]: the [n] decimal digits of [r], most significant first. *)
Fixpoint digits (n : nat) (r : Z) : string :=
  match n with
  | O => EmptyString
  | S n' =>
      String (ascii_of_nat (48 + Z.to_nat (r / 10 ^ Z.of_nat n' mod 10)))
             (digits n' r)
  end.

Fixpoint trim_zeros (s : string) : string :=
  match s with
  | EmptyString => EmptyString
  | String c rest =>
      match trim_zeros rest with
      | EmptyString => if Ascii.eqb c "0"%char then EmptyString else String c EmptyString
      | t => String c t
      end
  end.

Definition plain_formatUnits (value decimals : Z) : string :=
  let scale := 10 ^ decimals in
  let fraction := trim_zeros (digits (Z.to_nat decimals) (Z.abs value mod scale)) in
  let sign := if value <? 0 then "-" else "" in
  let integer := pretty (Z.abs value / scale) in
  (sign ++ integer ++ (if fraction =? "" then "" else "." ++ fraction))%string.

(** The integer a finite integral double stands for. *)
Definition integral_value (x : float) : option Z :=
  match Prim2SF x with
  | S754_zero _ => Some 0
  | S754_finite sign m e =>
      let v := if sign then Z.neg m else Z.pos m in
      if 0 <=? e then Some (v * 2 ^ e)
      else if Z.pos m mod 2 ^ (- e) =? 0 then Some (v / 2 ^ (- e)) else None
  | _ => None
  end.

Definition plain_Number_toString (x : float) : string :=
  match integral_value x with
  | Some z => pretty z
  | None => "NaN"
  end.

(** The double nearest to [n / 10^k] (ties to even): the quotient is taken
    with at least 62 bits and a sticky bit stands for the remainder. *)
Definition nearest_double (negative : bool) (n : Z) (k : nat) : float :=
  let d := 10 ^ Z.of_nat k in
  let s := Z.max 0 (64 + Z.log2 d - Z.log2 n) in
  let q := n * 2 ^ s / d in
  let sticky := if n * 2 ^ s mod d =? 0 then 0 else 1 in
  let m := 2 * q + sticky in
  SF2Prim (binary_normalize prec emax (if negative then - m else m) (- s - 1) negative).

Definition plain_StringToNumber (s : string) : float :=
  let '(negative, magnitude) :=
    match s with
    | String "-"%char rest => (true, rest)
    | String "+"%char rest => (false, rest)
    | _ => (false, s)
    end in
  let '(integer, fraction) := split_dot magnitude in
  match read_digits integer 0 0, read_digits (default EmptyString fraction) 0 0 with
  | Some (i, ni), Some (f, nf) =>
      if ((ni + nf =? 0)%nat && negb (s =? "")%string)%bool then nan
      else nearest_double negative (i * 10 ^ Z.of_nat nf + f) nf
  | _, _ => nan
  end.

Definition plain_world (reserves : Z * Z * Z) (token0 : string)
    (roundData : Z * Z * Z * Z * Z) : World :=
  {| Number_toString := plain_Number_toString;
     StringToNumber := plain_StringToNumber;
     Object_toString := fun _ => Ok "[object Object]";
     Date_now := 1700000000000%float;
     parseEther := plain_parseEther;
     formatUnits := plain_formatUnits;
     privateKeyToAccount := fun _ => Ok "0xSigner";
     rpc_getReserves := fun _ _ => Ok reserves;
     rpc_token0 := fun _ _ => Ok token0;
     rpc_latestRoundData := fun _ _ => Ok roundData;
     rpc_transfer := fun _ _ _ amount =>
       if ((amount <? 0) || (2 ^ 256 <=? amount))%bool
       then Throw (Raised "IntegerOutOfRangeError")
       else Ok "0xTxHash";
     kv_get_fault := fun _ => None;
     kv_put_fault := fun _ _ => None |}.

Definition sample_env : Env :=
  {| API_KEY := "secret";
     PRIVATE_KEY := "0xKey";
     CHAIN_ID := "56";
     BSC_RPC := "https://bsc.example";
     ETH_RPC := "https://eth.example";
     ALX_CONTRACT_ADDRESS := "0xAbCdEf0000000000000000000000000000000001";
     USDT_CONTRACT_ADDRESS := "0x55d398326f99059fF775485246999027B3197955";
     PAIR_ADDRESS := "0x00000000000000000000000000000000000000AA";
     CHAINLINK_ORACLE_ADDRESS := "0x00000000000000000000000000000000000000BB" |}.

Definition pay_request (body : JsValue) : Request :=
  {| header_X_API_KEY := Some "secret";
     method := "POST";
     pathname := "/pay";
     searchParam_order := None;
     json := Ok body |}.

Definition pay_body (address rwa_amount offset order : JsValue) : JsValue :=
  JObj [("address", address); ("rwa_amount", rwa_amount);
        ("offset", offset); ("order", order)].

Definition empty_sys : Sys := {| db := ∅; log := [] |}.

Definition E18 : Z := 10 ^ 18.



(** ** The specification's formulas, in its own words

    [floor] is [Z.div]; the handler's arithmetic is compared with these. *)

(** token_amount = floor(requested_pegged_value_scaled × settlement_reserve
    / reference_reserve) *)
Definition spec_direct_amount (scaled settlement_reserve reference_reserve : Z) : Z :=
  (scaled * settlement_reserve) / reference_reserve.

(** intermediate = floor(requested_pegged_value_scaled × external_rate /
    10^8); token_amount = floor(intermediate × settlement_reserve /
    reference_reserve) *)
Definition spec_oracle_amount
    (scaled external_rate settlement_reserve reference_reserve : Z) : Z :=
  ((scaled * external_rate) / 10 ^ 8 * settlement_reserve) / reference_reserve.

(** token_amount = floor(token_amount × multiplier / 10000) *)
Definition spec_offset_amount (token_amount multiplier : Z) : Z :=
  (token_amount * multiplier) / 10000.

(** [m] is the floor of the real number the double [y] stands for. *)
Definition is_floor_of (y : float) (m : Z) : Prop :=
  match Prim2SF y with
  | S754_zero _ => m = 0
  | S754_finite sign mantissa e =>
      let v := if sign then Z.neg mantissa else Z.pos mantissa in
      if 0 <=? e then m = v * 2 ^ e
      else m * 2 ^ (- e) <= v < (m + 1) * 2 ^ (- e)
  | S754_infinity _ | S754_nan => False
  end.

(** Case-insensitive equality of two strings: the same length, and at each
    position the same character or the two cases of one letter. *)
Definition is_upper (c : ascii) : bool :=
  ((65 <=? nat_of_ascii c)%nat && (nat_of_ascii c <=? 90)%nat)%bool.

Definition same_letter (a b : ascii) : bool :=
  (Ascii.eqb a b
   || (is_upper a && (nat_of_ascii b =? nat_of_ascii a + 32)%nat)
   || (is_upper b && (nat_of_ascii a =? nat_of_ascii b + 32)%nat))%bool.

Fixpoint equal_ignoring_case (s t : string) : bool :=
  match s, t with
  | EmptyString, EmptyString => true
  | String a s', String b t' => (same_letter a b && equal_ignoring_case s' t')%bool
  | _, _ => false
  end.

Definition all_ascii : list ascii := map ascii_of_nat (seq 0 256).

(** The reserve pair of a pool reading, (settlement reserve, reference
    reserve): [reserve0] is the settlement reserve when [token0] is the
    settlement token's address up to letter case, [reserve1] otherwise. *)
Definition spec_resolved_reserves (settlement_token token0 : string)
    (reserve0 reserve1 : Z) : Z * Z :=
  if equal_ignoring_case token0 settlement_token
  then (reserve0, reserve1)
  else (reserve1, reserve0).

(** The falsy values of JavaScript that a parsed body or a coercion can
    produce: [undefined], [null], [false], [0], [-0], [NaN] and the empty
    string. *)
Definition falsy_values : list JsValue :=
  [JUndefined; JNull; JBool false; JNum 0; JNum (-0); JNum nan; JStr ""].

(** What the field check of [POST /pay] counts as a missing parameter: a
    falsy [address], [rwa_amount] or [order], or an [offset] that is
    [undefined]. *)
Definition missing_fields (address rwa_amount offset order : JsValue) : Prop :=
  In address falsy_values \/ In rwa_amount falsy_values \/ In order falsy_values
  \/ offset = JUndefined.

(** The double of the decimal [k / 100], as a number written with two
    decimals is read: the quotient of two exact doubles is rounded to the
    nearest. *)
Definition two_decimals (k : Z) : float :=
  let magnitude := of_uint63 (Uint63.of_Z (Z.abs k)) in
  ((if (k <? 0)%Z then - magnitude else magnitude) / 100)%float.

(** The multiplier of the offset [x] is computed and is negative. *)
Definition negative_multiplier (x : float) : bool :=
  match BigInt_floor ((1 + x / 100) * 10000)%float with
  | Ok m => m <? 0
  | Throw _ => false
  end.

(** [p] holds of the [n] integers from [k] downwards. *)
Fixpoint all_downwards (k : Z) (n : nat) (p : Z -> bool) : bool :=
  match n with
  | O => true
  | S n' => p k && all_downwards (k - 1) n' p
  end.

(** The transfers submitted in a log of calls: recipient and amount. *)
Definition transfer_of (ev : Event) : option (JsValue * Z) :=
  match ev with
  | WriteContract _ _ to amount => Some (to, amount)
  | _ => None
  end.

Definition transfers (calls : list Event) : list (JsValue * Z) :=
  omap transfer_of calls.

(** Store reads and store writes among the calls. *)
Definition is_lookup (ev : Event) : Prop := exists key, ev = KvGet key.

Definition is_store_write (ev : Event) : Prop := exists key value, ev = KvPut key value.

(** ** Sample inputs *)

Definition alx_lowercase : string := "0xabcdef0000000000000000000000000000000001".

(** The pool of the specification's examples: 2,000,000 ALX against
    1,000,000 USDT, ALX being token0; the feed answers 0.14. *)
Definition example_pool : World :=
  plain_world (2000000 * E18, 1000000 * E18, 1700000000) alx_lowercase
    (1, 14000000, 1700000000, 1700000000, 1).

(** A pool holding 1 wei of ALX against 3 wei of USDT. *)
Definition thin_pool : World :=
  plain_world (1, 3, 1700000000) alx_lowercase
    (1, 14000000, 1700000000, 1700000000, 1).

(** A pool without ALX. *)
Definition drained_pool : World :=
  plain_world (0, 5 * E18, 1700000000) alx_lowercase
    (1, 14000000, 1700000000, 1700000000, 1).

(** A pool holding 1 wei of ALX against 10^18 wei of USDT. *)
Definition dust_pool : World :=
  plain_world (1, E18, 1700000000) alx_lowercase
    (1, 14000000, 1700000000, 1700000000, 1).

(** A pool whose token0 is USDT: 7 USDT against 9 ALX. *)
Definition usdt_first_pool : World :=
  plain_world (7 * E18, 9 * E18, 1700000000) "0x55d398326f99059fF775485246999027B3197955"
    (1, 14000000, 1700000000, 1700000000, 1).

(** A pool whose token0 is ALX, its address in capitals: 9 ALX against 7
    USDT. *)
Definition capitals_pool : World :=
  plain_world (9 * E18, 7 * E18, 1700000000) "0XABCDEF0000000000000000000000000000000001"
    (1, 14000000, 1700000000, 1700000000, 1).

(** [w] with another answer to the transfer submission. *)
Definition with_rpc_transfer (w : World)
    (answer : WalletClient -> string -> JsValue -> Z -> Res string) : World :=
  {| Number_toString := Number_toString w;
     StringToNumber := StringToNumber w;
     Object_toString := Object_toString w;
     Date_now := Date_now w;
     parseEther := parseEther w;
     formatUnits := formatUnits w;
     privateKeyToAccount := privateKeyToAccount w;
     rpc_getReserves := rpc_getReserves w;
     rpc_token0 := rpc_token0 w;
     rpc_latestRoundData := rpc_latestRoundData w;
     rpc_transfer := answer;
     kv_get_fault := kv_get_fault w;
     kv_put_fault := kv_put_fault w |}.

(** The example pool behind a node that rejects the submission. *)
Definition rejecting_node : World :=
  with_rpc_transfer example_pool (fun _ _ _ _ => Throw (Raised "insufficient funds")).

Definition stored_outcome : JsValue :=
  JObj [("status", JStr "success"); ("tx_hash", JStr "0xOld");
        ("alx_sent", JStr "200"); ("rwa_value", JNum 100);
        ("timestamp", JNum 1690000000000)].

Definition settled_sys : Sys :=
  {| db := {["order-1" := stored_outcome]}; log := [] |}.

Definition sample_address : JsValue :=
  JStr "0x000000000000000000000000000000000000dEaD".

Definition sample_pay (rwa_amount offset : JsValue) : Request :=
  pay_request (pay_body sample_address rwa_amount offset (JStr "order-1")).

(** A body without [offset]. *)
Definition no_offset_body : JsValue :=
  JObj [("address", sample_address); ("rwa_amount", JNum 100); ("order", JStr "order-1")].

Definition sample_wallet : WalletClient :=
  {| wc_account := "0xSigner"; wc_chain := bsc; wc_transport := "https://bsc.example" |}.


(** ** Whole runs *)

(** The calls of a settlement that runs to its end, in order: the lookup,
    the pool reads, the transfer and the record. *)
Definition settlement_calls (env : Env) (v : Variant) (key account : string)
    (address : JsValue) (amount : Z) (outcome : JsValue) : list Event :=
  KvGet key :: pool_reads env v
  ++ [WriteContract (walletClient env account) (ALX_CONTRACT_ADDRESS env) address amount;
      KvPut key outcome].

(** An authenticated [GET /status] for [order]. *)
Definition status_request (order : option string) : Request :=
  {| header_X_API_KEY := Some "secret";
     method := "GET";
     pathname := "/status";
     searchParam_order := order;
     json := Throw (Raised "Unexpected end of JSON input") |}.

(** The example pool with a KV binding whose writes fail. *)
Definition failing_store : World :=
  {| Number_toString := Number_toString example_pool;
     StringToNumber := StringToNumber example_pool;
     Object_toString := Object_toString example_pool;
     Date_now := Date_now example_pool;
     parseEther := parseEther example_pool;
     formatUnits := formatUnits example_pool;
     privateKeyToAccount := privateKeyToAccount example_pool;
     rpc_getReserves := rpc_getReserves example_pool;
     rpc_token0 := rpc_token0 example_pool;
     rpc_latestRoundData := rpc_latestRoundData example_pool;
     rpc_transfer := rpc_transfer example_pool;
     kv_get_fault := kv_get_fault example_pool;
     kv_put_fault := fun _ _ => Some (Raised "KV PUT failed: 429 Too Many Requests") |}.

(** A pool holding ALX but no USDT. *)
Definition one_sided_pool : World :=
  plain_world (5 * E18, 0, 1700000000) alx_lowercase
    (1, 14000000, 1700000000, 1700000000, 1).

(** The outcome of the direct example: 100 USD at offset 0 on the example
    pool. *)
Definition sample_outcome : JsValue :=
  resultData example_pool "0xTxHash" (200 * E18) (JNum 100).

(** The state after that payment has been settled from [empty_sys]. *)
Definition settled_once : Sys :=
  {| db := <["order-1" := sample_outcome]> ∅;
     log := settlement_calls sample_env Direct "order-1" "0xSigner" sample_address
              (200 * E18) sample_outcome |}.

(** [env] with other values for the fields named. *)
Definition with_usdt_address (env : Env) (usdt : string) : Env :=
  {| API_KEY := API_KEY env;
     PRIVATE_KEY := PRIVATE_KEY env;
     CHAIN_ID := CHAIN_ID env;
     BSC_RPC := BSC_RPC env;
     ETH_RPC := ETH_RPC env;
     ALX_CONTRACT_ADDRESS := ALX_CONTRACT_ADDRESS env;
     USDT_CONTRACT_ADDRESS := usdt;
     PAIR_ADDRESS := PAIR_ADDRESS env;
     CHAINLINK_ORACLE_ADDRESS := CHAINLINK_ORACLE_ADDRESS env |}.

Definition with_oracle_settings (env : Env) (eth_rpc oracle : string) : Env :=
  {| API_KEY := API_KEY env;
     PRIVATE_KEY := PRIVATE_KEY env;
     CHAIN_ID := CHAIN_ID env;
     BSC_RPC := BSC_RPC env;
     ETH_RPC := eth_rpc;
     ALX_CONTRACT_ADDRESS := ALX_CONTRACT_ADDRESS env;
     USDT_CONTRACT_ADDRESS := USDT_CONTRACT_ADDRESS env;
     PAIR_ADDRESS := PAIR_ADDRESS env;
     CHAINLINK_ORACLE_ADDRESS := oracle |}.

(** The example pool behind a KV binding whose reads fail. *)
Definition unreadable_store : World :=
  {| Number_toString := Number_toString example_pool;
     StringToNumber := StringToNumber example_pool;
     Object_toString := Object_toString example_pool;
     Date_now := Date_now example_pool;
     parseEther := parseEther example_pool;
     formatUnits := formatUnits example_pool;
     privateKeyToAccount := privateKeyToAccount example_pool;
     rpc_getReserves := rpc_getReserves example_pool;
     rpc_token0 := rpc_token0 example_pool;
     rpc_latestRoundData := rpc_latestRoundData example_pool;
     rpc_transfer := rpc_transfer example_pool;
     kv_get_fault := fun _ => Some (Raised "KV GET failed: 500 Internal Server Error");
     kv_put_fault := kv_put_fault example_pool |}.

(** The example pool with a feed that answers exactly 1 (10^8). *)
Definition par_feed : World :=
  plain_world (2000000 * E18, 1000000 * E18, 1700000000) alx_lowercase
    (1, 100000000, 1700000000, 1700000000, 1).

(** * Properties *)

(** ** Running the handler *)

Arguments price_resolver : simpl never.
Arguments rwaAmountBigInt : simpl never.
Arguments convert_direct : simpl never.
Arguments convert_oracle : simpl never.
Arguments multiplier : simpl never.
Arguments apply_offset : simpl never.
Arguments resultData : simpl never.
Arguments ToString : simpl never.
Arguments missing_parameters : simpl never.
Arguments unauthorized : simpl never.
Arguments truthy : simpl never.
Arguments publicClient : simpl never.
Arguments walletClient : simpl never.
Arguments ethClient : simpl never.

Ltac run_monad :=
  unfold try_catch, bind, lift, ret, throw, emit, logged in *;
  cbn [fst snd db log] in *.

(** Case analysis on the next answer of a collaborator or pure stage. *)
Ltac split_res :=
  match goal with
  | |- context [match ?x with Ok _ => _ | Throw _ => _ end] =>
      lazymatch x with
      | Ok _ => fail
      | Throw _ => fail
      | _ => destruct x eqn:?
      end
  end.

Ltac tidy_log := rewrite <- ?app_assoc; cbn [app].

Ltac split_pair :=
  match goal with
  | |- context [let (_, _) := ?x in _] => is_var x; destruct x
  end.

Lemma quote_run w env v rwa_amount σ :
  quote w env v rwa_amount σ
  = (quoted w env v rwa_amount, logged σ (pool_reads env v)).
Proof.
  destruct v; unfold quote, quote_direct, quote_oracle, quoted, pool_reads, readContract,
    Promise_all2, Promise_all3, res_bind; run_monad; cbn [app].
  - repeat first [split_res; cbn | split_pair; cbn]; tidy_log; reflexivity.
  - repeat first [split_res; cbn | split_pair; cbn]; tidy_log; reflexivity.
Qed.

Lemma call_parses env request address rwa_amount offset order :
  PayCall env request address rwa_amount offset order ->
  exists body, json request = Ok body
               /\ destructure body = Ok (address, rwa_amount, offset, order).
Proof.
  intros [_ _ _ Hb]. destruct (json request) as [body|e]; cbn in Hb; [|discriminate].
  eauto.
Qed.

(** An authenticated [POST /pay] whose body destructures reaches the field
    check; past it, the order is coerced to a key and looked up. *)
Lemma fetch_call w env v request σ address rwa_amount offset order :
  PayCall env request address rwa_amount offset order ->
  fetch w env v request σ
  = if missing_parameters address rwa_amount offset order
    then (Ok (jsonResp (P_error "Missing parameters") 400), σ)
    else
      match ToString w order with
      | Throw e => (Ok (jsonResp (P_failure e) 500), σ)
      | Ok key =>
          match kv_get_fault w key with
          | Some e => (Ok (jsonResp (P_failure e) 500), logged σ [KvGet key])
          | None =>
              let existing := default JNull (db σ !! key) in
              if truthy existing
              then (Ok (jsonResp (P_duplicate existing) 200), logged σ [KvGet key])
              else try_catch (settle w env v address rwa_amount offset key)
                     (fun e => ret (jsonResp (P_failure e) 500)) (logged σ [KvGet key])
          end
      end.
Proof.
  intros Hc. destruct (call_parses _ _ _ _ _ _ Hc) as (body & Hj & Hd).
  destruct Hc as [Hauth Hm Hp _].
  unfold fetch, pay, DB_get. rewrite Hauth, Hm, Hp. cbn [String.eqb Ascii.eqb Bool.eqb andb].
  run_monad. rewrite Hj, Hd.
  destruct (missing_parameters _ _ _ _); [reflexivity|].
  destruct (ToString w order) as [key|e]; [|reflexivity].
  destruct (kv_get_fault w key); [reflexivity|].
  destruct (truthy _); reflexivity.
Qed.

Lemma fetch_valid w env v request σ address rwa_amount offset order key :
  ValidPay w env request address rwa_amount offset order key ->
  fetch w env v request σ
  = match kv_get_fault w key with
    | Some e => (Ok (jsonResp (P_failure e) 500), logged σ [KvGet key])
    | None =>
        let existing := default JNull (db σ !! key) in
        if truthy existing
        then (Ok (jsonResp (P_duplicate existing) 200), logged σ [KvGet key])
        else try_catch (settle w env v address rwa_amount offset key)
               (fun e => ret (jsonResp (P_failure e) 500)) (logged σ [KvGet key])
    end.
Proof.
  intros [Hc Hf Hk]. now rewrite (fetch_call _ _ _ _ _ _ _ _ _ Hc), Hf, Hk.
Qed.

Lemma settle_run w env v address rwa_amount offset key σ :
  try_catch (settle w env v address rwa_amount offset key)
    (fun e => ret (jsonResp (P_failure e) 500)) (logged σ [KvGet key])
  = settlement w env v address rwa_amount offset key σ.
Proof.
  unfold settle, settlement, writeContract, DB_put, try_catch, bind at 1 2.
  unfold lift at 1.
  destruct (privateKeyToAccount _ _) as [account|e]; [|reflexivity].
  rewrite quote_run. run_monad.
  destruct (quoted _ _ _ _) as [s|e]; [|tidy_log; reflexivity].
  destruct (multiplier _ _) as [m|e]; [|tidy_log; reflexivity].
  destruct (rpc_transfer _ _ _ _ _) as [txHash|e]; [|tidy_log; reflexivity].
  destruct (kv_put_fault _ _ _); tidy_log; reflexivity.
Qed.

(** The run on a fresh order. *)
Lemma fetch_fresh w env v request σ address rwa_amount offset order key :
  FreshOrder w env request σ address rwa_amount offset order key ->
  fetch w env v request σ = settlement w env v address rwa_amount offset key σ.
Proof.
  intros [Hv Hl Ha]. rewrite (fetch_valid _ _ _ _ _ _ _ _ _ _ Hv), Hl. cbn zeta.
  rewrite Ha. apply settle_run.
Qed.

(** ** Authentication *)

(** C8: a request of any method and path whose [X-API-KEY] header is absent
    or is not the configured secret is answered 401, and the handler makes
    no call at all: the store and the log of calls are left as they were. *)
Theorem unauthorized_request_is_refused w env v request σ :
  header_X_API_KEY request <> Some (API_KEY env) ->
  fetch w env v request σ
  = (Ok (jsonResp (P_error "Unauthorized: Invalid API Key") 401), σ).
Proof.
  intros Hkey. unfold fetch, unauthorized.
  destruct (header_X_API_KEY request) as [k|]; [|reflexivity].
  destruct (String.eqb_spec k (API_KEY env)) as [->|Hne]; [congruence|].
  now rewrite orb_true_r.
Qed.

Lemma unauthorized_request_is_refused_witness :
  Some "guess" <> Some (API_KEY sample_env)
  /\ fetch example_pool sample_env Direct
       {| header_X_API_KEY := Some "guess"; method := "POST"; pathname := "/pay";
          searchParam_order := None;
          json := Ok (pay_body (JStr "0xdEaD") (JNum 100) (JNum 0) (JStr "order-1")) |}
       settled_sys
     = (Ok (jsonResp (P_error "Unauthorized: Invalid API Key") 401), settled_sys).
Proof.
  split; [discriminate|].
  apply unauthorized_request_is_refused. discriminate.
Defined.

(** ** Comparison of addresses *)

Lemma in_all_ascii (c : ascii) : In c all_ascii.
Proof.
  unfold all_ascii. rewrite <- (ascii_nat_embedding c).
  apply in_map, in_seq. pose proof (nat_ascii_bounded c). lia.
Qed.

Lemma lower_ascii_same_letter (a b : ascii) :
  Ascii.eqb (lower_ascii a) (lower_ascii b) = same_letter a b.
Proof.
  assert (H : forallb (fun a => forallb (fun b =>
               Bool.eqb (Ascii.eqb (lower_ascii a) (lower_ascii b)) (same_letter a b))
             all_ascii) all_ascii = true) by (vm_compute; reflexivity).
  rewrite forallb_forall in H. specialize (H a (in_all_ascii a)).
  rewrite forallb_forall in H. specialize (H b (in_all_ascii b)).
  now apply Bool.eqb_prop in H.
Qed.

Lemma toLowerCase_equal_ignoring_case (s t : string) :
  (toLowerCase s =? toLowerCase t)%string = equal_ignoring_case s t.
Proof.
  revert t. induction s as [|a s IH]; intros [|b t]; cbn; try reflexivity.
  now rewrite lower_ascii_same_letter, IH.
Qed.

(** ** Field validation *)

Lemma settlement_status w env v address rwa_amount offset key σ :
  exists resp σ',
    settlement w env v address rwa_amount offset key σ = (Ok resp, σ')
    /\ (status resp = 200 \/ status resp = 500).
Proof.
  unfold settlement.
  repeat match goal with
         | |- context [match ?x with _ => _ end] => destruct x
         end; cbn zeta; eexists _, _; (split; [reflexivity|]); cbn; auto.
Qed.

Lemma SFcompare_refl (f : spec_float) :
  f <> S754_nan -> SFcompare f f = Some Eq.
Proof.
  destruct f as [s|s| |s m e]; cbn; intros H; try congruence.
  - now destruct s.
  - destruct s; rewrite Z.compare_refl; fold (Pos.compare m m);
      now rewrite Pos.compare_refl.
Qed.

(** The doubles that are falsy: the two zeros and NaN. *)
Lemma falsy_double (x : float) :
  PrimFloat.eqb x 0 || PrimFloat.is_nan x = true
  <-> x = 0%float \/ x = (-0)%float \/ x = nan.
Proof.
  split.
  - intros H. apply orb_true_iff in H as [H|H].
    + rewrite FloatAxioms.eqb_spec in H. change (Prim2SF 0) with (S754_zero false) in H.
      destruct (Prim2SF x) as [s|s| |s m e] eqn:Hx; cbn in H; try discriminate.
      * rewrite <- (SF2Prim_Prim2SF x), Hx. destruct s; [right; left|left]; reflexivity.
      * now destruct s.
      * now destruct s.
    + unfold is_nan in H. rewrite FloatAxioms.eqb_spec in H.
      destruct (Prim2SF x) as [s|s| |s m e] eqn:Hx.
      * discriminate.
      * unfold SFeqb in H. rewrite SFcompare_refl in H by discriminate. discriminate.
      * right; right. rewrite <- (SF2Prim_Prim2SF x), Hx. reflexivity.
      * unfold SFeqb in H. rewrite SFcompare_refl in H by discriminate. discriminate.
  - intros [-> | [-> | ->]]; reflexivity.
Qed.

(** [!v] holds exactly of the falsy values. *)
Lemma truthy_falsy_values (u : JsValue) :
  truthy u = false <-> In u falsy_values.
Proof.
  unfold truthy, falsy_values. split.
  - destruct u as [| |b|x|s|items|fields]; cbn [In]; intros H; auto 10;
      try discriminate.
    + subst b. auto 10.
    + apply negb_false_iff, falsy_double in H. destruct H as [-> | [-> | ->]]; auto 10.
    + apply negb_false_iff, String.eqb_eq in H. subst s. auto 10.
  - cbn [In]. intros H.
    repeat (destruct H as [H|H]; [subst u; reflexivity|]). destruct H.
Qed.

Lemma missing_parameters_missing_fields address rwa_amount offset order :
  missing_parameters address rwa_amount offset order = true
  <-> missing_fields address rwa_amount offset order.
Proof.
  unfold missing_parameters, missing_fields.
  rewrite !orb_true_iff, !negb_true_iff, !truthy_falsy_values.
  assert (Hu : is_undefined offset = true <-> offset = JUndefined).
  { destruct offset; cbn; split; congruence. }
  tauto.
Qed.

(** C10: on [POST /pay] the presence check is a truthiness check for
    [address], [rwa_amount] and [order] and a comparison with [undefined]
    for [offset].  The values that count as falsy are [undefined], [null],
    [false], [0], [-0], [NaN] and the empty string, and no other.  A body in
    which [address], [rwa_amount] or [order] is one of them (so [rwa_amount =
    0], or an empty [address] or [order], although the field is there), or
    in which [offset] is absent, is answered 400 "Missing parameters" without
    any call being made.  Every other body passes the check, whatever its
    [offset] ([0], [null], [false] and the empty string included): it is
    answered 200 or 500, never 400. *)
Theorem falsy_fields_count_as_missing w env v request σ address rwa_amount offset order :
  PayCall env request address rwa_amount offset order ->
  (forall u, truthy u = false <-> In u falsy_values)
  /\ (missing_parameters address rwa_amount offset order = true
      <-> missing_fields address rwa_amount offset order)
  /\ (missing_fields address rwa_amount offset order ->
      fetch w env v request σ
      = (Ok (jsonResp (P_error "Missing parameters") 400), σ))
  /\ (~ missing_fields address rwa_amount offset order ->
      exists resp σ',
        fetch w env v request σ = (Ok resp, σ')
        /\ (status resp = 200 \/ status resp = 500)).
Proof.
  intros Hc. rewrite (fetch_call _ _ _ _ _ _ _ _ _ Hc).
  split; [exact truthy_falsy_values|].
  split; [apply missing_parameters_missing_fields|]. split.
  - intros H. apply missing_parameters_missing_fields in H. now rewrite H.
  - intros H. rewrite <- missing_parameters_missing_fields in H.
    apply not_true_is_false in H. rewrite H.
    destruct (ToString w order) as [key|e]; [|eexists _, _; split; [reflexivity|cbn; auto]].
    destruct (kv_get_fault w key); [eexists _, _; split; [reflexivity|cbn; auto]|].
    cbn zeta. destruct (truthy (default JNull (db σ !! key)));
      [eexists _, _; split; [reflexivity|cbn; auto]|].
    rewrite settle_run. apply settlement_status.
Qed.

(** Two values that differ, possibly as two doubles. *)
Ltac other_value H :=
  first [discriminate H
        | injection H as H; apply (f_equal Prim2SF) in H; vm_compute in H;
          discriminate H].

Lemma sample_pay_call rwa_amount offset :
  PayCall sample_env (sample_pay rwa_amount offset)
    sample_address rwa_amount offset (JStr "order-1").
Proof. constructor; reflexivity. Qed.

Lemma falsy_fields_count_as_missing_witness :
  PayCall sample_env (pay_request no_offset_body)
    sample_address (JNum 100) JUndefined (JStr "order-1")
  /\ fetch example_pool sample_env Direct (sample_pay (JNum 0) (JNum 0)) empty_sys
     = (Ok (jsonResp (P_error "Missing parameters") 400), empty_sys)
  /\ fetch example_pool sample_env Direct (pay_request no_offset_body) empty_sys
     = (Ok (jsonResp (P_error "Missing parameters") 400), empty_sys)
  /\ forall offset,
       In offset [JNull; JBool false; JNum 0; JStr ""] ->
       exists resp σ',
         fetch example_pool sample_env Direct (sample_pay (JNum 100) offset) empty_sys
         = (Ok resp, σ')
         /\ (status resp = 200 \/ status resp = 500).
Proof.
  assert (Hc : PayCall sample_env (pay_request no_offset_body)
                 sample_address (JNum 100) JUndefined (JStr "order-1"))
    by (constructor; reflexivity).
  split; [exact Hc|]. split; [|split].
  - apply (proj1 (proj2 (proj2
             (falsy_fields_count_as_missing example_pool sample_env Direct _
                empty_sys _ _ _ _ (sample_pay_call (JNum 0) (JNum 0)))))).
    right; left. cbn. auto 10.
  - apply (proj1 (proj2 (proj2
             (falsy_fields_count_as_missing example_pool sample_env Direct _
                empty_sys _ _ _ _ Hc)))).
    right; right; right. reflexivity.
  - intros offset Ho.
    apply (proj2 (proj2 (proj2
             (falsy_fields_count_as_missing example_pool sample_env Direct _
                empty_sys _ _ _ _ (sample_pay_call (JNum 100) offset))))).
    unfold missing_fields, falsy_values. cbn [In] in *.
    intros [H|[H|[H|H]]].
    1-3: repeat (destruct H as [H|H]; [other_value H|]); destruct H.
    subst offset. repeat (destruct Ho as [Ho|Ho]; [discriminate Ho|]). destruct Ho.
Defined.

(** ** Idempotency *)

Lemma logged_nil σ : logged σ [] = σ.
Proof. destruct σ. unfold logged. cbn. now rewrite app_nil_r. Qed.

(** A valid payment whose order already has an outcome is answered from the
    store after the single lookup. *)
Lemma fetch_duplicate w env v request σ address rwa_amount offset order key stored :
  ValidPay w env request address rwa_amount offset order key ->
  kv_get_fault w key = None ->
  db σ !! key = Some stored ->
  truthy stored = true ->
  fetch w env v request σ
  = (Ok (jsonResp (P_duplicate stored) 200), logged σ [KvGet key]).
Proof.
  intros Hv Hl Hs Ht. rewrite (fetch_valid _ _ _ _ _ _ _ _ _ _ Hv), Hl, Hs. cbn.
  now rewrite Ht.
Qed.

(** Whatever the request and the answers of the collaborators, an order
    whose outcome is in the store leads to store reads only. *)
Lemma present_order_only_reads w env v request σ body address rwa_amount offset order
    key stored :
  json request = Ok body ->
  destructure body = Ok (address, rwa_amount, offset, order) ->
  ToString w order = Ok key ->
  db σ !! key = Some stored ->
  truthy stored = true ->
  exists r calls,
    fetch w env v request σ = (r, logged σ calls) /\ Forall is_lookup calls.
Proof.
  intros Hj Hd Hk Hs Ht. unfold fetch.
  destruct (unauthorized _ _);
    [exists (Ok (jsonResp (P_error "Unauthorized: Invalid API Key") 401)), [];
     now rewrite logged_nil|].
  destruct (_ && _).
  { unfold status_route, DB_get. run_monad.
    destruct (searchParam_order request) as [o|];
      [|eexists _, []; rewrite app_nil_r; destruct σ; split; [reflexivity|constructor]].
    destruct (o =? "")%string;
      [eexists _, []; rewrite app_nil_r; destruct σ; split; [reflexivity|constructor]|].
    destruct (kv_get_fault w o); eexists _, [KvGet o];
      (split; [reflexivity|repeat constructor; now exists o]). }
  destruct (_ && _);
    [|eexists _, []; rewrite logged_nil; split; [reflexivity|constructor]].
  unfold pay, DB_get. run_monad. rewrite Hj, Hd.
  destruct (missing_parameters _ _ _ _);
    [eexists _, []; rewrite app_nil_r; destruct σ; split; [reflexivity|constructor]|].
  rewrite Hk.
  destruct (kv_get_fault w key); [eexists _, [KvGet key];
      (split; [reflexivity|repeat constructor; now exists key])|].
  cbn [db log]. rewrite Hs. cbn. rewrite Ht.
  eexists _, [KvGet key]. split; [reflexivity|repeat constructor; now exists key].
Qed.

(** A settlement that succeeds records its outcome, and the same request
    sent again is then answered from the store. *)
Lemma settled_order_becomes_duplicate
    w env v request σ address rwa_amount offset order key data σ' w' :
  FreshOrder w env request σ address rwa_amount offset order key ->
  fetch w env v request σ = (Ok (jsonResp (P_success data) 200), σ') ->
  ValidPay w' env request address rwa_amount offset order key ->
  kv_get_fault w' key = None ->
  db σ' !! key = Some data
  /\ fetch w' env v request σ'
     = (Ok (jsonResp (P_duplicate data) 200), logged σ' [KvGet key]).
Proof.
  intros Hf Hrun Hv Hl. rewrite (fetch_fresh _ _ _ _ _ _ _ _ _ _ Hf) in Hrun.
  unfold settlement in Hrun.
  assert (Hs : db σ' !! key = Some data /\ truthy data = true).
  { repeat match type of Hrun with
           | context [match ?x with _ => _ end] => destruct x
           end; cbn zeta in Hrun; try discriminate.
    injection Hrun as <- <-. cbn [db]. now rewrite lookup_insert_eq. }
  destruct Hs as [Hs Ht]. split; [exact Hs|].
  now apply (fetch_duplicate w' env v request σ' address rwa_amount offset order key data).
Qed.

(** C1, as the code has it: the field check comes before the lookup.  An
    authenticated [POST /pay] that passes the field check and whose order
    has a stored outcome is answered 200 with that outcome under the
    "Duplicate request" message, after one store read and nothing else; and
    any request at all for such an order makes store reads only: no transfer
    is submitted and nothing is written. *)
Theorem duplicate_order_is_not_settled_again
    w env v request σ address rwa_amount offset order key stored :
  db σ !! key = Some stored ->
  truthy stored = true ->
  ToString w order = Ok key ->
  (PayCall env request address rwa_amount offset order ->
   missing_parameters address rwa_amount offset order = false ->
   kv_get_fault w key = None ->
   fetch w env v request σ
   = (Ok (jsonResp (P_duplicate stored) 200), logged σ [KvGet key]))
  /\ (res_bind (json request) destructure = Ok (address, rwa_amount, offset, order) ->
      exists r calls,
        fetch w env v request σ = (r, logged σ calls)
        /\ db (logged σ calls) = db σ
        /\ Forall is_lookup calls).
Proof.
  intros Hs Ht Hk. split.
  - intros Hc Hf Hl.
    apply (fetch_duplicate w env v request σ address rwa_amount offset order key stored);
      auto.
    constructor; assumption.
  - intros Hb. destruct (json request) as [body|e] eqn:Hj; cbn in Hb; [|discriminate].
    destruct (present_order_only_reads w env v request σ body _ _ _ _ key stored
                Hj Hb Hk Hs Ht) as (r & calls & Hrun & Hcalls).
    exists r, calls. auto.
Qed.

Lemma duplicate_order_is_not_settled_again_witness :
  fetch example_pool sample_env Direct (sample_pay (JNum 100) (JNum 0)) settled_sys
  = (Ok (jsonResp (P_duplicate stored_outcome) 200), logged settled_sys [KvGet "order-1"]).
Proof.
  apply (proj1 (duplicate_order_is_not_settled_again example_pool sample_env Direct
                  (sample_pay (JNum 100) (JNum 0)) settled_sys sample_address
                  (JNum 100) (JNum 0) (JStr "order-1") "order-1" stored_outcome
                  eq_refl eq_refl eq_refl)).
  - apply sample_pay_call.
  - reflexivity.
  - reflexivity.
Defined.

(** C1 as stated fails: with the order in the store and a body that lacks
    [address], the answer is 400 "Missing parameters", not the stored
    outcome. *)
Lemma duplicate_with_incomplete_body_is_rejected :
  let request :=
    pay_request (JObj [("rwa_amount", JNum 100); ("offset", JNum 0);
                       ("order", JStr "order-1")]) in
  let run := fetch example_pool sample_env Direct request settled_sys in
  db settled_sys !! "order-1" = Some stored_outcome
  /\ run = (Ok (jsonResp (P_error "Missing parameters") 400), settled_sys)
  /\ fst run <> Ok (jsonResp (P_duplicate stored_outcome) 200).
Proof.
  cbv zeta. split; [reflexivity|]. split; [reflexivity|]. discriminate.
Qed.

(** ** Pricing *)

Lemma quoted_reads w env v reserves token0 answer rwa_amount :
  PoolReads w env v reserves token0 answer ->
  quoted w env v rwa_amount
  = res_bind (price_resolver env reserves token0) (fun '(alxReserve, usdtReserve) =>
    res_bind (rwaAmountBigInt w rwa_amount) (fun scaled =>
    convert v scaled answer alxReserve usdtReserve)).
Proof.
  intros (Hr & Ht & Ho). unfold quoted. rewrite Hr, Ht. destruct v; cbn.
  - reflexivity.
  - destruct Ho as (roundId & startedAt & updatedAt & answeredInRound & ->). reflexivity.
Qed.

Lemma price_resolver_empty env reserve0 reserve1 ts token0 :
  fst (resolve_reserves env token0 reserve0 reserve1) = 0 ->
  price_resolver env (reserve0, reserve1, ts) token0
  = Throw (Error "Liquidity pool is empty").
Proof.
  unfold price_resolver. destruct (resolve_reserves _ _ _ _) as [alx usdt]. cbn.
  now intros ->.
Qed.

Lemma price_resolver_nonempty env reserve0 reserve1 ts token0 :
  fst (resolve_reserves env token0 reserve0 reserve1) <> 0 ->
  price_resolver env (reserve0, reserve1, ts) token0
  = Ok (resolve_reserves env token0 reserve0 reserve1).
Proof.
  unfold price_resolver. destruct (resolve_reserves _ _ _ _) as [alx usdt]. cbn.
  intros H. now destruct (Z.eqb_spec alx 0).
Qed.

(** C2: when the reads succeed and the reserve resolved for ALX is zero,
    whatever the other reserve, a fresh payment is answered 500 with the
    error "Liquidity pool is empty"; the calls made are the lookup and the
    reads: no transfer is submitted and nothing is written to the store. *)
Theorem empty_pool_aborts_payment
    w env v request σ address rwa_amount offset order key account
    reserve0 reserve1 ts token0 answer :
  FreshOrder w env request σ address rwa_amount offset order key ->
  privateKeyToAccount w (PRIVATE_KEY env) = Ok account ->
  PoolReads w env v (reserve0, reserve1, ts) token0 answer ->
  fst (resolve_reserves env token0 reserve0 reserve1) = 0 ->
  fetch w env v request σ
  = (Ok (jsonResp (P_failure (Error "Liquidity pool is empty")) 500),
     logged σ (KvGet key :: pool_reads env v)).
Proof.
  intros Hf Ha Hp Hz. rewrite (fetch_fresh _ _ _ _ _ _ _ _ _ _ Hf).
  unfold settlement. rewrite Ha, (quoted_reads _ _ _ _ _ _ _ Hp).
  now rewrite (price_resolver_empty _ _ _ _ _ Hz).
Qed.

Lemma sample_pay_fresh w rwa_amount offset :
  missing_parameters sample_address rwa_amount offset (JStr "order-1") = false ->
  kv_get_fault w "order-1" = None ->
  FreshOrder w sample_env (sample_pay rwa_amount offset) empty_sys
    sample_address rwa_amount offset (JStr "order-1") "order-1".
Proof.
  intros Hm Hl. repeat constructor; assumption.
Qed.

Lemma plain_world_reads v reserves token0 roundId answer startedAt updatedAt answeredInRound :
  PoolReads (plain_world reserves token0 (roundId, answer, startedAt, updatedAt, answeredInRound))
    sample_env v reserves token0 answer.
Proof.
  repeat split. destruct v; [exact I|]. now exists roundId, startedAt, updatedAt, answeredInRound.
Qed.

Lemma empty_pool_aborts_payment_witness :
  fetch drained_pool sample_env Oracle (sample_pay (JNum 700) (JNum 0)) empty_sys
  = (Ok (jsonResp (P_failure (Error "Liquidity pool is empty")) 500),
     logged empty_sys (KvGet "order-1" :: pool_reads sample_env Oracle)).
Proof.
  apply (empty_pool_aborts_payment drained_pool sample_env Oracle _ empty_sys
           sample_address (JNum 700) (JNum 0) (JStr "order-1") "order-1" "0xSigner"
           0 (5 * E18) 1700000000 alx_lowercase 14000000).
  - apply sample_pay_fresh; reflexivity.
  - reflexivity.
  - apply plain_world_reads.
  - reflexivity.
Defined.

(** ** Conversion and offset *)

Lemma transfers_app (calls calls' : list Event) :
  transfers (calls ++ calls') = transfers calls ++ transfers calls'.
Proof. apply omap_app. Qed.

Lemma transfers_cons (ev : Event) (calls : list Event) :
  transfers (ev :: calls)
  = match transfer_of ev with
    | Some t => t :: transfers calls
    | None => transfers calls
    end.
Proof. reflexivity. Qed.

Lemma transfers_pool_reads env v : transfers (pool_reads env v) = [].
Proof. now destruct v. Qed.

Arguments transfers : simpl never.

(** On a fresh order, once the quote and the multiplier are computed the
    transfer is submitted for the offset amount, and it is the only one. *)
Lemma fetch_transfers w env v request σ address rwa_amount offset order key account s m :
  FreshOrder w env request σ address rwa_amount offset order key ->
  privateKeyToAccount w (PRIVATE_KEY env) = Ok account ->
  quoted w env v rwa_amount = Ok s ->
  multiplier w offset = Ok m ->
  transfers (log (snd (fetch w env v request σ)))
  = transfers (log σ) ++ [(address, apply_offset s m)].
Proof.
  intros Hf Ha Hq Hm. rewrite (fetch_fresh _ _ _ _ _ _ _ _ _ _ Hf).
  unfold settlement. rewrite Ha, Hq, Hm. cbn zeta.
  destruct (rpc_transfer _ _ _ _ _) as [txHash|e];
    [destruct (kv_put_fault _ _ _)|]; cbn [snd log logged];
    rewrite transfers_app, transfers_cons, transfers_app, transfers_pool_reads,
      !transfers_cons; reflexivity.
Qed.

Lemma quoted_convert w env v reserves token0 answer rwa_amount alxReserve usdtReserve scaled :
  PoolReads w env v reserves token0 answer ->
  price_resolver env reserves token0 = Ok (alxReserve, usdtReserve) ->
  rwaAmountBigInt w rwa_amount = Ok scaled ->
  quoted w env v rwa_amount = convert v scaled answer alxReserve usdtReserve.
Proof.
  intros Hp Hr Hs. now rewrite (quoted_reads _ _ _ _ _ _ _ Hp), Hr; cbn; rewrite Hs.
Qed.

(** ** Reserve resolution in the handler *)

(** C9: for every pool reading the handler takes [reserve0] for the ALX
    (settlement) reserve and [reserve1] for the USDT (reference) reserve when
    [token0] equals the configured ALX address up to letter case, and the
    other way round otherwise; recasing [token0] or the configured address
    changes nothing.  The pair so resolved is the one a payment is priced
    with: the quote is the empty-pool error when the settlement reserve is
    zero and otherwise the conversion on (settlement reserve, reference
    reserve), and the transfer submitted is for that quote with the offset
    applied. *)
Theorem payment_is_priced_with_resolved_reserves
    w env v request σ address rwa_amount offset order key account
    reserve0 reserve1 ts token0 answer scaled settlement_reserve reference_reserve :
  FreshOrder w env request σ address rwa_amount offset order key ->
  privateKeyToAccount w (PRIVATE_KEY env) = Ok account ->
  PoolReads w env v (reserve0, reserve1, ts) token0 answer ->
  rwaAmountBigInt w rwa_amount = Ok scaled ->
  spec_resolved_reserves (ALX_CONTRACT_ADDRESS env) token0 reserve0 reserve1
  = (settlement_reserve, reference_reserve) ->
  resolve_reserves env token0 reserve0 reserve1 = (settlement_reserve, reference_reserve)
  /\ (forall env' token0',
        equal_ignoring_case (ALX_CONTRACT_ADDRESS env') (ALX_CONTRACT_ADDRESS env) = true ->
        equal_ignoring_case token0' token0 = true ->
        resolve_reserves env' token0' reserve0 reserve1
        = (settlement_reserve, reference_reserve))
  /\ quoted w env v rwa_amount
     = (if settlement_reserve =? 0 then Throw (Error "Liquidity pool is empty")
        else convert v scaled answer settlement_reserve reference_reserve)
  /\ (forall s m,
        settlement_reserve <> 0 ->
        convert v scaled answer settlement_reserve reference_reserve = Ok s ->
        multiplier w offset = Ok m ->
        transfers (log (snd (fetch w env v request σ)))
        = transfers (log σ) ++ [(address, apply_offset s m)]).
Proof.
  intros Hf Ha Hp Hs Hspec.
  assert (Hr : resolve_reserves env token0 reserve0 reserve1
               = (settlement_reserve, reference_reserve)).
  { rewrite <- Hspec. unfold resolve_reserves, spec_resolved_reserves.
    now rewrite toLowerCase_equal_ignoring_case. }
  assert (Hq : quoted w env v rwa_amount
               = (if settlement_reserve =? 0 then Throw (Error "Liquidity pool is empty")
                  else convert v scaled answer settlement_reserve reference_reserve)).
  { destruct (Z.eqb_spec settlement_reserve 0) as [Hz|Hz].
    - rewrite (quoted_reads _ _ _ _ _ _ _ Hp), price_resolver_empty; [reflexivity|].
      now rewrite Hr.
    - apply (quoted_convert _ _ _ _ _ _ _ _ _ _ Hp); [|exact Hs].
      rewrite price_resolver_nonempty; [now rewrite Hr|]. now rewrite Hr. }
  split; [exact Hr|]. split; [|split; [exact Hq|]].
  - intros env' token0' He Ht. rewrite <- Hr. unfold resolve_reserves.
    rewrite <- toLowerCase_equal_ignoring_case in He, Ht.
    apply String.eqb_eq in He, Ht. now rewrite He, Ht.
  - intros s m Hz Hc Hm.
    apply (fetch_transfers _ _ _ _ _ _ _ _ _ _ account s m Hf Ha); [|exact Hm].
    rewrite Hq. destruct (Z.eqb_spec settlement_reserve 0); [contradiction|exact Hc].
Qed.

Lemma payment_is_priced_with_resolved_reserves_witness :
  resolve_reserves sample_env (USDT_CONTRACT_ADDRESS sample_env) (7 * E18) (9 * E18)
  = (9 * E18, 7 * E18)
  /\ transfers (log (snd (fetch usdt_first_pool sample_env Direct
                            (sample_pay (JNum 1) (JNum 0)) empty_sys)))
     = [(sample_address, 1285714285714285714)]
  /\ resolve_reserves sample_env "0XABCDEF0000000000000000000000000000000001"
       (9 * E18) (7 * E18)
     = (9 * E18, 7 * E18)
  /\ transfers (log (snd (fetch capitals_pool sample_env Direct
                            (sample_pay (JNum 1) (JNum 0)) empty_sys)))
     = [(sample_address, 1285714285714285714)].
Proof.
  pose proof (payment_is_priced_with_resolved_reserves usdt_first_pool sample_env Direct
                (sample_pay (JNum 1) (JNum 0)) empty_sys sample_address
                (JNum 1) (JNum 0) (JStr "order-1") "order-1" "0xSigner"
                (7 * E18) (9 * E18) 1700000000 (USDT_CONTRACT_ADDRESS sample_env)
                14000000 E18 (9 * E18) (7 * E18)) as Husdt.
  pose proof (payment_is_priced_with_resolved_reserves capitals_pool sample_env Direct
                (sample_pay (JNum 1) (JNum 0)) empty_sys sample_address
                (JNum 1) (JNum 0) (JStr "order-1") "order-1" "0xSigner"
                (9 * E18) (7 * E18) 1700000000 "0XABCDEF0000000000000000000000000000000001"
                14000000 E18 (9 * E18) (7 * E18)) as Hcap.
  destruct Husdt as (Hr & _ & _ & Ht);
    [apply sample_pay_fresh; reflexivity|reflexivity|apply plain_world_reads
    |vm_compute; reflexivity|vm_compute; reflexivity|].
  destruct Hcap as (Hr' & _ & _ & Ht');
    [apply sample_pay_fresh; reflexivity|reflexivity|apply plain_world_reads
    |vm_compute; reflexivity|vm_compute; reflexivity|].
  split; [exact Hr|]. split; [|split; [exact Hr'|]].
  - apply (Ht 1285714285714285714 10000); [discriminate|vm_compute; reflexivity
                                           |vm_compute; reflexivity].
  - apply (Ht' 1285714285714285714 10000); [discriminate|vm_compute; reflexivity
                                            |vm_compute; reflexivity].
Defined.

(** ** The amounts *)

Lemma bigint_div_nonzero a b : b <> 0 -> bigint_div a b = Ok (a ÷ b).
Proof. intros H. unfold bigint_div. now destruct (Z.eqb_spec b 0). Qed.

Lemma multiplier_Number w offset x :
  Number w offset = Ok x ->
  multiplier w offset = BigInt_floor ((1 + x / 100) * 10000)%float.
Proof. intros H. unfold multiplier. now rewrite H. Qed.

Lemma multiplier_zero_offset w offset :
  Number w offset = Ok 0%float -> multiplier w offset = Ok 10000.
Proof. intros H. rewrite (multiplier_Number _ _ _ H). vm_compute. reflexivity. Qed.

(** C3, as the code has it: in the direct version the amount before the
    offset is the BigInt quotient [(scaled * alxReserve) / usdtReserve],
    which rounds toward zero; it is the floor of the specification whenever
    the scaled value is not negative.  With 2,000,000 ALX against 1,000,000
    USDT, a requested value of 100 and offset 0, the one transfer submitted
    is of exactly 200 * 10^18. *)
Theorem direct_amount_is_truncated_quotient
    w env request σ address rwa_amount offset order key account
    reserves token0 answer alxReserve usdtReserve scaled m :
  FreshOrder w env request σ address rwa_amount offset order key ->
  privateKeyToAccount w (PRIVATE_KEY env) = Ok account ->
  PoolReads w env Direct reserves token0 answer ->
  price_resolver env reserves token0 = Ok (alxReserve, usdtReserve) ->
  rwaAmountBigInt w rwa_amount = Ok scaled ->
  usdtReserve <> 0 ->
  multiplier w offset = Ok m ->
  transfers (log (snd (fetch w env Direct request σ)))
  = transfers (log σ) ++ [(address, apply_offset ((scaled * alxReserve) ÷ usdtReserve) m)]
  /\ (0 <= scaled -> 0 <= alxReserve -> 0 < usdtReserve ->
      (scaled * alxReserve) ÷ usdtReserve
      = spec_direct_amount scaled alxReserve usdtReserve)
  /\ (scaled = 100 * E18 -> alxReserve = 2000000 * E18 -> usdtReserve = 1000000 * E18 ->
      Number w offset = Ok 0%float ->
      transfers (log (snd (fetch w env Direct request σ)))
      = transfers (log σ) ++ [(address, 200 * E18)]).
Proof.
  intros Hf Ha Hp Hr Hs Hu Hm.
  assert (Hq : quoted w env Direct rwa_amount = Ok ((scaled * alxReserve) ÷ usdtReserve)).
  { rewrite (quoted_convert _ _ _ _ _ _ _ _ _ _ Hp Hr Hs). now apply bigint_div_nonzero. }
  pose proof (fetch_transfers _ _ _ _ _ _ _ _ _ _ _ _ _ Hf Ha Hq Hm) as Ht.
  split; [exact Ht|]. split.
  - intros H1 H2 H3. unfold spec_direct_amount. apply Z.quot_div_nonneg; nia.
  - intros -> -> -> Hn. rewrite Ht. rewrite (multiplier_zero_offset _ _ Hn) in Hm.
    injection Hm as <-. reflexivity.
Qed.

Lemma direct_amount_is_truncated_quotient_witness :
  transfers (log (snd (fetch example_pool sample_env Direct
                         (sample_pay (JNum 100) (JNum 0)) empty_sys)))
  = [(sample_address, 200 * E18)].
Proof.
  apply (direct_amount_is_truncated_quotient example_pool sample_env
           (sample_pay (JNum 100) (JNum 0)) empty_sys sample_address (JNum 100) (JNum 0)
           (JStr "order-1") "order-1" "0xSigner"
           (2000000 * E18, 1000000 * E18, 1700000000) alx_lowercase 14000000
           (2000000 * E18) (1000000 * E18) (100 * E18) 10000);
    try reflexivity.
  - apply sample_pay_fresh; reflexivity.
  - apply plain_world_reads.
  - discriminate.
Defined.

(** C3 as stated fails for a negative requested value: with 1 wei of ALX
    against 3 wei of USDT and [rwa_amount = -1], the handler computes
    -333333333333333333 where the floor is -333333333333333334. *)
Lemma direct_amount_of_negative_value_is_not_floor :
  let run := fetch thin_pool sample_env Direct (sample_pay (JNum (-1)) (JNum 0)) empty_sys in
  rwaAmountBigInt thin_pool (JNum (-1)) = Ok (- E18)
  /\ transfers (log (snd run)) = [(sample_address, -333333333333333333)]
  /\ spec_direct_amount (- E18) 1 3 = -333333333333333334.
Proof.
  cbv zeta. split; [reflexivity|]. split; vm_compute; reflexivity.
Qed.

(** C4, as the code has it: in the oracle version the value is first
    converted with the feed's answer, [(scaled * answer) / 100000000], then
    with the pool ratio, both BigInt quotients rounding toward zero; the
    result is the double floor of the specification whenever the scaled
    value and the answer are not negative.  With an answer of 14000000, a
    requested value of 700, 2,000,000 ALX against 1,000,000 USDT and offset
    0, the one transfer submitted is of exactly 196 * 10^18. *)
Theorem oracle_amount_is_truncated_quotient
    w env request σ address rwa_amount offset order key account
    reserves token0 answer alxReserve usdtReserve scaled m :
  FreshOrder w env request σ address rwa_amount offset order key ->
  privateKeyToAccount w (PRIVATE_KEY env) = Ok account ->
  PoolReads w env Oracle reserves token0 answer ->
  price_resolver env reserves token0 = Ok (alxReserve, usdtReserve) ->
  rwaAmountBigInt w rwa_amount = Ok scaled ->
  usdtReserve <> 0 ->
  multiplier w offset = Ok m ->
  transfers (log (snd (fetch w env Oracle request σ)))
  = transfers (log σ)
    ++ [(address,
         apply_offset (((scaled * answer) ÷ 100000000 * alxReserve) ÷ usdtReserve) m)]
  /\ (0 <= scaled -> 0 <= answer -> 0 <= alxReserve -> 0 < usdtReserve ->
      ((scaled * answer) ÷ 100000000 * alxReserve) ÷ usdtReserve
      = spec_oracle_amount scaled answer alxReserve usdtReserve)
  /\ (scaled = 700 * E18 -> answer = 14000000 ->
      alxReserve = 2000000 * E18 -> usdtReserve = 1000000 * E18 ->
      Number w offset = Ok 0%float ->
      transfers (log (snd (fetch w env Oracle request σ)))
      = transfers (log σ) ++ [(address, 196 * E18)]).
Proof.
  intros Hf Ha Hp Hr Hs Hu Hm.
  assert (Hq : quoted w env Oracle rwa_amount
               = Ok (((scaled * answer) ÷ 100000000 * alxReserve) ÷ usdtReserve)).
  { rewrite (quoted_convert _ _ _ _ _ _ _ _ _ _ Hp Hr Hs). now apply bigint_div_nonzero. }
  pose proof (fetch_transfers _ _ _ _ _ _ _ _ _ _ _ _ _ Hf Ha Hq Hm) as Ht.
  split; [exact Ht|]. split.
  - intros H1 H2 H3 H4. unfold spec_oracle_amount.
    change (10 ^ 8) with 100000000.
    rewrite (Z.quot_div_nonneg (scaled * answer) 100000000) by nia.
    apply Z.quot_div_nonneg; [|assumption].
    apply Z.mul_nonneg_nonneg; [|assumption].
    apply Z.div_pos; nia.
  - intros -> -> -> -> Hn. rewrite Ht. rewrite (multiplier_zero_offset _ _ Hn) in Hm.
    injection Hm as <-. reflexivity.
Qed.

Lemma oracle_amount_is_truncated_quotient_witness :
  transfers (log (snd (fetch example_pool sample_env Oracle
                         (sample_pay (JNum 700) (JNum 0)) empty_sys)))
  = [(sample_address, 196 * E18)].
Proof.
  apply (oracle_amount_is_truncated_quotient example_pool sample_env
           (sample_pay (JNum 700) (JNum 0)) empty_sys sample_address (JNum 700) (JNum 0)
           (JStr "order-1") "order-1" "0xSigner"
           (2000000 * E18, 1000000 * E18, 1700000000) alx_lowercase 14000000
           (2000000 * E18) (1000000 * E18) (700 * E18) 10000);
    try reflexivity.
  - apply sample_pay_fresh; reflexivity.
  - apply plain_world_reads.
  - discriminate.
Defined.

(** C4 as stated fails for a negative requested value: with an answer of
    14000000, 1 wei of ALX against 3 wei of USDT and [rwa_amount = -1], the
    handler computes -46666666666666666 where the floor is
    -46666666666666667. *)
Lemma oracle_amount_of_negative_value_is_not_floor :
  let run := fetch thin_pool sample_env Oracle (sample_pay (JNum (-1)) (JNum 0)) empty_sys in
  rwaAmountBigInt thin_pool (JNum (-1)) = Ok (- E18)
  /\ transfers (log (snd run)) = [(sample_address, -46666666666666666)]
  /\ spec_oracle_amount (- E18) 14000000 1 3 = -46666666666666667.
Proof.
  cbv zeta. split; [reflexivity|]. split; vm_compute; reflexivity.
Qed.

(** [BigInt_floor] computes the floor of the double's value, and fails
    exactly on NaN and the infinities. *)
Lemma BigInt_floor_is_floor (y : float) (m : Z) :
  BigInt_floor y = Ok m <-> is_floor_of y m.
Proof.
  unfold BigInt_floor, is_floor_of.
  destruct (Prim2SF y) as [sign|sign| |sign mantissa e]; try (split; [discriminate|tauto]).
  - split; [now intros [= <-]|now intros ->].
  - cbn zeta. destruct (Z.leb_spec 0 e) as [He|He].
    + split; [now intros [= <-]|now intros ->].
    + set (v := if sign then Z.neg mantissa else Z.pos mantissa).
      assert (Hd : 0 < 2 ^ (- e)) by (apply Z.pow_pos_nonneg; lia).
      split.
      * intros [= <-]. pose proof (Z.mul_div_le v _ Hd).
        pose proof (Z.mul_succ_div_gt v _ Hd). nia.
      * intros [H1 H2]. f_equal. symmetry.
        apply (Z.div_unique_pos v (2 ^ (- e)) m (v - m * 2 ^ (- e))); lia.
Qed.

(** C5, as the code has it: in both versions the offset is applied last.
    The multiplier is the floor of the double [(1 + offset / 100) * 10000]
    and the amount becomes the BigInt quotient [(amount * multiplier) /
    10000], which rounds toward zero: the floor of the specification whenever
    [amount * multiplier] is not negative.  With the amount 200 * 10^18 of the
    direct example and offset +10.00, the one transfer submitted is of
    exactly 220 * 10^18. *)
Theorem offset_is_applied_last
    w env v request σ address rwa_amount offset order key account s x m :
  FreshOrder w env request σ address rwa_amount offset order key ->
  privateKeyToAccount w (PRIVATE_KEY env) = Ok account ->
  quoted w env v rwa_amount = Ok s ->
  Number w offset = Ok x ->
  BigInt_floor ((1 + x / 100) * 10000)%float = Ok m ->
  transfers (log (snd (fetch w env v request σ)))
  = transfers (log σ) ++ [(address, (s * m) ÷ 10000)]
  /\ is_floor_of ((1 + x / 100) * 10000)%float m
  /\ (0 <= s * m -> (s * m) ÷ 10000 = spec_offset_amount s m)
  /\ (forall reserves token0 answer,
        v = Direct ->
        PoolReads w env Direct reserves token0 answer ->
        price_resolver env reserves token0 = Ok (2000000 * E18, 1000000 * E18) ->
        rwaAmountBigInt w rwa_amount = Ok (100 * E18) ->
        x = 10%float ->
        transfers (log (snd (fetch w env v request σ)))
        = transfers (log σ) ++ [(address, 220 * E18)]).
Proof.
  intros Hf Ha Hq Hn Hm.
  assert (Hmul : multiplier w offset = Ok m) by now rewrite (multiplier_Number _ _ _ Hn).
  pose proof (fetch_transfers _ _ _ _ _ _ _ _ _ _ _ _ _ Hf Ha Hq Hmul) as Ht.
  split; [exact Ht|]. split; [now apply BigInt_floor_is_floor|]. split.
  - intros H. unfold spec_offset_amount. apply Z.quot_div_nonneg; lia.
  - intros reserves token0 answer -> Hp Hr Hs ->. rewrite Ht.
    assert (m = 11000) as -> by (vm_compute in Hm; congruence).
    rewrite (quoted_convert _ _ _ _ _ _ _ _ _ _ Hp Hr Hs) in Hq.
    assert (s = 200 * E18) as ->
      by (vm_compute in Hq; injection Hq as <-; reflexivity).
    reflexivity.
Qed.

Lemma offset_is_applied_last_witness :
  transfers (log (snd (fetch example_pool sample_env Direct
                         (sample_pay (JNum 100) (JStr "+10.00")) empty_sys)))
  = [(sample_address, 220 * E18)].
Proof.
  apply (offset_is_applied_last example_pool sample_env Direct
           (sample_pay (JNum 100) (JStr "+10.00")) empty_sys sample_address
           (JNum 100) (JStr "+10.00") (JStr "order-1") "order-1" "0xSigner"
           (200 * E18) 10%float 11000);
    try reflexivity.
  apply sample_pay_fresh; reflexivity.
Defined.

(** C5 as stated fails when the amount is negative: with 1 wei of ALX
    against 3 wei of USDT, [rwa_amount = -1] and offset 10, the amount before
    the offset is -333333333333333333 and the multiplier 11000; the handler
    submits -366666666666666666 where the floor is -366666666666666667. *)
Lemma offset_of_negative_amount_is_not_floor :
  let run := fetch thin_pool sample_env Direct (sample_pay (JNum (-1)) (JNum 10)) empty_sys in
  quoted thin_pool sample_env Direct (JNum (-1)) = Ok (-333333333333333333)
  /\ multiplier thin_pool (JNum 10) = Ok 11000
  /\ transfers (log (snd run)) = [(sample_address, -366666666666666666)]
  /\ spec_offset_amount (-333333333333333333) 11000 = -366666666666666667.
Proof.
  cbv zeta. repeat split; vm_compute; reflexivity.
Qed.

(** ** Offsets below -100% *)

Lemma fetch_fresh_status w env v request σ address rwa_amount offset order key :
  FreshOrder w env request σ address rwa_amount offset order key ->
  exists resp σ',
    fetch w env v request σ = (Ok resp, σ')
    /\ (status resp = 200 \/ status resp = 500).
Proof.
  intros Hf. rewrite (fetch_fresh _ _ _ _ _ _ _ _ _ _ Hf). apply settlement_status.
Qed.

Lemma all_downwards_spec (p : Z -> bool) (n : nat) :
  forall k j, all_downwards k n p = true -> k - Z.of_nat n < j <= k -> p j = true.
Proof.
  induction n as [|n IH]; intros k j H Hj; [lia|].
  cbn [all_downwards] in H. apply andb_true_iff in H as [H1 H2].
  destruct (Z.eq_dec j k) as [->|Hne]; [exact H1|].
  apply (IH (k - 1)); [exact H2|lia].
Qed.

(** Every offset of two decimals from -1000.00 to -100.01 has a negative
    multiplier: all 90,000 of them are evaluated. *)
Lemma two_decimals_below_minus_100 (k : Z) :
  -100000 <= k <= -10001 -> negative_multiplier (two_decimals k) = true.
Proof.
  intros Hk.
  apply (all_downwards_spec (fun k => negative_multiplier (two_decimals k))
           (Z.to_nat 90000) (-10001)); [vm_compute; reflexivity|lia].
Qed.

(** C6, as the code has it: the offset is not range-checked.  A fresh
    payment is answered 200 or 500 whatever its offset, never with a
    validation error.  Whenever the signing account, the quote [s] and the
    multiplier [m] are computed, [writeContract] is called once, with the
    amount [(s * m) / 10000], whatever the sign of [m]; in every other case
    it is not called.  For every offset of two decimals from -1000.00 to
    -100.01 the multiplier is computed and negative (-5000 for -150), and
    with a negative multiplier the amount handed to [writeContract] is zero
    or negative for a quote that is not negative.  For an offset of
    -Infinity the multiplier is not computed: [BigInt] throws. *)
Theorem offset_is_not_range_checked
    w env v request σ address rwa_amount offset order key :
  FreshOrder w env request σ address rwa_amount offset order key ->
  (exists resp σ',
     fetch w env v request σ = (Ok resp, σ')
     /\ (status resp = 200 \/ status resp = 500))
  /\ transfers (log (snd (fetch w env v request σ)))
     = transfers (log σ)
       ++ match privateKeyToAccount w (PRIVATE_KEY env),
                quoted w env v rwa_amount, multiplier w offset with
          | Ok _, Ok s, Ok m => [(address, (s * m) ÷ 10000)]
          | _, _, _ => []
          end
  /\ (forall k,
        -100000 <= k <= -10001 ->
        Number w offset = Ok (two_decimals k) ->
        exists m, multiplier w offset = Ok m /\ m < 0
                  /\ forall s, 0 <= s -> (s * m) ÷ 10000 <= 0)
  /\ (Number w offset = Ok (-150)%float -> multiplier w offset = Ok (-5000))
  /\ (Number w offset = Ok neg_infinity ->
      multiplier w offset = Throw RangeError_NotAnInteger).
Proof.
  intros Hf. split; [exact (fetch_fresh_status w env v _ _ _ _ _ _ _ Hf)|].
  split; [|split; [|split]].
  - rewrite (fetch_fresh _ _ _ _ _ _ _ _ _ _ Hf). unfold settlement.
    destruct (privateKeyToAccount w (PRIVATE_KEY env)) as [account|e].
    2:{ cbn [snd log logged]. now rewrite transfers_app. }
    destruct (quoted w env v rwa_amount) as [s|e].
    2:{ cbn [snd log logged].
        now rewrite transfers_app, transfers_cons, transfers_pool_reads. }
    destruct (multiplier w offset) as [m|e].
    2:{ cbn [snd log logged].
        now rewrite transfers_app, transfers_cons, transfers_pool_reads. }
    cbn zeta. destruct (rpc_transfer _ _ _ _ _) as [txHash|e];
      [destruct (kv_put_fault _ _ _)|]; cbn [snd log logged];
      rewrite transfers_app, transfers_cons, transfers_app, transfers_pool_reads,
        !transfers_cons; reflexivity.
  - intros k Hk Hn. rewrite (multiplier_Number _ _ _ Hn).
    pose proof (two_decimals_below_minus_100 k Hk) as Hneg.
    unfold negative_multiplier in Hneg.
    destruct (BigInt_floor _) as [m|e]; [|discriminate].
    apply Z.ltb_lt in Hneg. exists m. split; [reflexivity|]. split; [exact Hneg|].
    intros s Hs. apply Z.quot_le_upper_bound; nia.
  - intros Hn. rewrite (multiplier_Number _ _ _ Hn). vm_compute. reflexivity.
  - intros Hn. rewrite (multiplier_Number _ _ _ Hn). vm_compute. reflexivity.
Qed.

Lemma offset_is_not_range_checked_witness :
  transfers (log (snd (fetch example_pool sample_env Direct
                         (sample_pay (JNum 100) (JNum (-150))) empty_sys)))
  = [(sample_address, (200 * E18 * -5000) ÷ 10000)]
  /\ two_decimals (-15000) = (-150)%float
  /\ two_decimals (-10001) = plain_StringToNumber "-100.01"
  /\ multiplier example_pool (JNum (-150)) = Ok (-5000).
Proof.
  pose proof (offset_is_not_range_checked example_pool sample_env Direct
                (sample_pay (JNum 100) (JNum (-150))) empty_sys sample_address
                (JNum 100) (JNum (-150)) (JStr "order-1") "order-1") as H.
  destruct H as (_ & Ht & _ & Hm & _); [apply sample_pay_fresh; reflexivity|].
  split; [|split; [|split]]; [|vm_compute; reflexivity..|apply Hm; reflexivity].
  rewrite Ht. vm_compute. reflexivity.
Defined.

(** C6 as stated fails: an offset of -150 is not rejected.  On the example
    pool the pricing reads are made and a transfer of -100 * 10^18 is handed
    to the wallet client, whose failure is answered 500; on a pool where the
    quote is 1 wei the transfer of 0 goes through and the order is answered
    200 and recorded. *)
Lemma offset_below_minus_100_is_not_rejected :
  let request := sample_pay (JNum 100) (JNum (-150)) in
  let run := fetch example_pool sample_env Direct request empty_sys in
  let run' := fetch dust_pool sample_env Direct (sample_pay (JNum 1) (JNum (-150))) empty_sys in
  multiplier example_pool (JNum (-150)) = Ok (-5000)
  /\ fst run = Ok (jsonResp (P_failure (Raised "IntegerOutOfRangeError")) 500)
  /\ log (snd run)
     = KvGet "order-1" :: pool_reads sample_env Direct
       ++ [WriteContract sample_wallet (ALX_CONTRACT_ADDRESS sample_env) sample_address
             (-100 * E18)]
  /\ (exists data, fst run' = Ok (jsonResp (P_success data) 200)
                   /\ db (snd run') !! "order-1" = Some data)
  /\ transfers (log (snd run')) = [(sample_address, 0)].
Proof.
  cbv zeta. repeat split; try (vm_compute; reflexivity).
  eexists. split; vm_compute; reflexivity.
Qed.

(** ** Failures *)

Lemma fresh_after_calls w env request σ address rwa_amount offset order key calls :
  FreshOrder w env request σ address rwa_amount offset order key ->
  FreshOrder w env request (logged σ calls) address rwa_amount offset order key.
Proof. intros [Hv Hl Ha]. now constructor. Qed.

Lemma pool_reads_no_write env v : Forall (fun ev => ~ is_store_write ev) (pool_reads env v).
Proof.
  destruct v; repeat constructor; intros (k & val & H); discriminate.
Qed.

(** C7: when a stage of a fresh payment throws (the account derivation, the
    pricing reads or the conversion, the multiplier, or the transfer
    submission), the answer is
    500 with that error, the store is unchanged and no write was attempted;
    the order is therefore still fresh, and the same request sent again goes
    through settlement again: in a world where the stages succeed, it submits
    a transfer. *)
Theorem failed_payment_leaves_store_unchanged
    w env v request σ address rwa_amount offset order key e :
  FreshOrder w env request σ address rwa_amount offset order key ->
  StageFails w env v address rwa_amount offset e ->
  exists calls,
    fetch w env v request σ = (Ok (jsonResp (P_failure e) 500), logged σ calls)
    /\ db (logged σ calls) = db σ
    /\ Forall (fun ev => ~ is_store_write ev) calls
    /\ FreshOrder w env request (logged σ calls) address rwa_amount offset order key
    /\ (forall w' account s m,
          FreshOrder w' env request σ address rwa_amount offset order key ->
          privateKeyToAccount w' (PRIVATE_KEY env) = Ok account ->
          quoted w' env v rwa_amount = Ok s ->
          multiplier w' offset = Ok m ->
          transfers (log (snd (fetch w' env v request (logged σ calls))))
          = transfers (log (logged σ calls)) ++ [(address, apply_offset s m)]).
Proof.
  intros Hf Hfail. rewrite (fetch_fresh _ _ _ _ _ _ _ _ _ _ Hf). unfold settlement.
  assert (Hget : ~ is_store_write (KvGet key)) by (intros (k & val & H); discriminate).
  assert (Hretry : forall calls w' account s m,
            FreshOrder w' env request σ address rwa_amount offset order key ->
            privateKeyToAccount w' (PRIVATE_KEY env) = Ok account ->
            quoted w' env v rwa_amount = Ok s ->
            multiplier w' offset = Ok m ->
            transfers (log (snd (fetch w' env v request (logged σ calls))))
            = transfers (log (logged σ calls)) ++ [(address, apply_offset s m)]).
  { intros calls w' account s m Hf' Ha Hq Hm.
    exact (fetch_transfers _ _ _ _ _ _ _ _ _ _ _ _ _
             (fresh_after_calls _ _ _ _ _ _ _ _ _ calls Hf') Ha Hq Hm). }
  destruct Hfail
    as [e Ha | account e Ha Hq | account s e Ha Hq Hm | account s m e Ha Hq Hm Ht];
    rewrite Ha, ?Hq, ?Hm; cbn zeta; rewrite ?Ht.
  - exists [KvGet key].
    split; [reflexivity|]. split; [reflexivity|]. split; [|split; [|apply Hretry]].
    + repeat constructor. exact Hget.
    + now apply fresh_after_calls.
  - exists (KvGet key :: pool_reads env v).
    split; [reflexivity|]. split; [reflexivity|]. split; [|split; [|apply Hretry]].
    + constructor; [exact Hget|apply pool_reads_no_write].
    + now apply fresh_after_calls.
  - exists (KvGet key :: pool_reads env v).
    split; [reflexivity|]. split; [reflexivity|]. split; [|split; [|apply Hretry]].
    + constructor; [exact Hget|apply pool_reads_no_write].
    + now apply fresh_after_calls.
  - eexists.
    split; [reflexivity|]. split; [reflexivity|]. split; [|split; [|apply Hretry]].
    + constructor; [exact Hget|]. apply Forall_app. split; [apply pool_reads_no_write|].
      repeat constructor. intros (k & val & H); discriminate.
    + now apply fresh_after_calls.
Qed.

Lemma failed_payment_leaves_store_unchanged_witness :
  exists calls,
    fetch rejecting_node sample_env Direct (sample_pay (JNum 100) (JNum 0)) empty_sys
    = (Ok (jsonResp (P_failure (Raised "insufficient funds")) 500), logged empty_sys calls)
    /\ db (logged empty_sys calls) = db empty_sys
    /\ transfers (log (snd (fetch example_pool sample_env Direct
                              (sample_pay (JNum 100) (JNum 0)) (logged empty_sys calls))))
       = transfers (log (logged empty_sys calls)) ++ [(sample_address, 200 * E18)].
Proof.
  destruct (failed_payment_leaves_store_unchanged rejecting_node sample_env Direct
              (sample_pay (JNum 100) (JNum 0)) empty_sys sample_address (JNum 100)
              (JNum 0) (JStr "order-1") "order-1" (Raised "insufficient funds"))
    as (calls & Hrun & Hdb & _ & _ & Hretry).
  - apply sample_pay_fresh; reflexivity.
  - apply (transfer_fails rejecting_node sample_env Direct sample_address (JNum 100)
             (JNum 0) "0xSigner" (200 * E18) 10000); reflexivity.
  - exists calls. split; [exact Hrun|]. split; [exact Hdb|].
    apply (Hretry example_pool "0xSigner" (200 * E18) 10000); try reflexivity.
    apply sample_pay_fresh; reflexivity.
Defined.

(** * Further properties of the handler *)

(** ** Every run *)

Ltac no_call σ :=
  left; eexists _, [];
  split; [first [rewrite logged_nil; reflexivity
                | rewrite app_nil_r; destruct σ; reflexivity]|];
  split; [now left|try (intros data; discriminate)].

Ltac one_call key :=
  left; eexists _, [KvGet key];
  split; [reflexivity|]; split; [right; now exists key|try (intros data; discriminate)].

(** Whatever the request and the world, a run either makes at most one
    call, a store read, and does not answer with a success, or it is the
    settlement of a fresh order. *)
Lemma fetch_cases w env v request σ :
  (exists r calls,
     fetch w env v request σ = (r, logged σ calls)
     /\ (calls = [] \/ exists key, calls = [KvGet key])
     /\ (forall data, r <> Ok (jsonResp (P_success data) 200)))
  \/ (exists address rwa_amount offset order key,
        FreshOrder w env request σ address rwa_amount offset order key).
Proof.
  unfold fetch.
  destruct (unauthorized env (header_X_API_KEY request)) eqn:Hauth; [no_call σ|].
  destruct ((method request =? "GET")%string && (pathname request =? "/status")%string).
  { unfold status_route, DB_get. run_monad.
    destruct (searchParam_order request) as [o|]; [|no_call σ].
    destruct (o =? "")%string; [no_call σ|].
    destruct (kv_get_fault w o); one_call o.
    intros data. destruct (truthy _); discriminate. }
  destruct ((method request =? "POST")%string && (pathname request =? "/pay")%string)
    eqn:Hpost; [|no_call σ].
  apply andb_true_iff in Hpost as [Hm Hp].
  apply String.eqb_eq in Hm, Hp.
  unfold pay, DB_get. run_monad.
  destruct (json request) as [body|e] eqn:Hj; [|no_call σ].
  destruct (destructure body) as [[[[address rwa_amount] offset] order]|e] eqn:Hd;
    [|no_call σ].
  destruct (missing_parameters _ _ _ _) eqn:Hf; [no_call σ|].
  destruct (ToString w order) as [key|e] eqn:Hk; [|no_call σ].
  destruct (kv_get_fault w key) eqn:Hl; [one_call key|].
  cbn [db log].
  destruct (truthy (default JNull (db σ !! key))) eqn:Ht; [one_call key|].
  right. exists address, rwa_amount, offset, order, key.
  repeat constructor; try assumption. now rewrite Hj.
Qed.

(** X1: for every request and every world, the calls of a run are an
    initial part of one fixed sequence: one store read, the pool reads of the
    version, one transfer on the ALX contract, one store write under the key
    that was read.  So a request never submits two transfers, never writes
    twice, and never writes or transfers before it has looked the order up. *)
Theorem calls_follow_settlement_order w env v request σ :
  exists r db' calls key account address amount outcome,
    fetch w env v request σ = (r, {| db := db'; log := log σ ++ calls |})
    /\ calls `prefix_of` settlement_calls env v key account address amount outcome.
Proof.
  destruct (fetch_cases w env v request σ)
    as [(r & calls & -> & Hcalls & _) | (address & rwa & offset & order & key & Hf)].
  - destruct Hcalls as [-> | [key ->]].
    + exists r, (db σ), [], "", "", JNull, 0, JNull. split; [reflexivity|apply prefix_nil].
    + exists r, (db σ), [KvGet key], key, "", JNull, 0, JNull.
      split; [reflexivity|apply prefix_cons, prefix_nil].
  - rewrite (fetch_fresh _ _ _ _ _ _ _ _ _ _ Hf). unfold settlement, settlement_calls.
    destruct (privateKeyToAccount w (PRIVATE_KEY env)) as [account|e].
    2:{ eexists _, _, _, key, "", address, 0, JNull.
        split; [reflexivity|apply prefix_cons, prefix_nil]. }
    destruct (quoted w env v rwa) as [s|e].
    2:{ eexists _, _, _, key, account, address, 0, JNull.
        split; [reflexivity|apply prefix_cons, prefix_app_r; reflexivity]. }
    destruct (multiplier w offset) as [m|e].
    2:{ eexists _, _, _, key, account, address, 0, JNull.
        split; [reflexivity|apply prefix_cons, prefix_app_r; reflexivity]. }
    cbn zeta. destruct (rpc_transfer _ _ _ _ _) as [txHash|e].
    2:{ eexists _, _, _, key, account, address, _, JNull.
        split; [reflexivity|apply prefix_cons, prefix_app, prefix_cons, prefix_nil]. }
    destruct (kv_put_fault _ _ _);
      eexists _, _, _, key, account, address, _, _; (split; [reflexivity|reflexivity]).
Qed.

(** What one run changes in the store. *)
Lemma fetch_store w env v request σ :
  let run := fetch w env v request σ in
  (db (snd run) = db σ
   /\ forall data, fst run <> Ok (jsonResp (P_success data) 200))
  \/ (exists address rwa_amount offset order key data,
        FreshOrder w env request σ address rwa_amount offset order key
        /\ fst run = Ok (jsonResp (P_success data) 200)
        /\ truthy data = true
        /\ db (snd run) = <[key := data]> (db σ)).
Proof.
  cbv zeta.
  destruct (fetch_cases w env v request σ)
    as [(r & calls & -> & _ & Hr) | (address & rwa & offset & order & key & Hf)].
  - left. split; [reflexivity|exact Hr].
  - rewrite (fetch_fresh _ _ _ _ _ _ _ _ _ _ Hf). unfold settlement.
    destruct (privateKeyToAccount w (PRIVATE_KEY env)) as [account|e];
      [|left; split; [reflexivity|discriminate]].
    destruct (quoted w env v rwa) as [s|e]; [|left; split; [reflexivity|discriminate]].
    destruct (multiplier w offset) as [m|e]; [|left; split; [reflexivity|discriminate]].
    cbn zeta. destruct (rpc_transfer _ _ _ _ _) as [txHash|e];
      [|left; split; [reflexivity|discriminate]].
    destruct (kv_put_fault _ _ _); [left; split; [reflexivity|discriminate]|].
    right. eexists address, rwa, offset, order, key, _.
    split; [exact Hf|]. repeat split; reflexivity.
Qed.

(** X2: the store only changes together with a 200 success answer, and
    then by the insertion of the answered outcome at a key that held no
    outcome; in every other run (401, 400, 404, duplicate, 500, an uncaught
    store fault) the store is left as it was. *)
Theorem store_changes_only_on_success w env v request σ :
  let run := fetch w env v request σ in
  (db (snd run) = db σ
   /\ forall data, fst run <> Ok (jsonResp (P_success data) 200))
  \/ (exists key data,
        fst run = Ok (jsonResp (P_success data) 200)
        /\ truthy (default JNull (db σ !! key)) = false
        /\ db (snd run) = <[key := data]> (db σ)).
Proof.
  destruct (fetch_store w env v request σ)
    as [H | (address & rwa & offset & order & key & data & Hf & Hr & _ & Hdb)];
    [now left|].
  right. exists key, data. destruct Hf as [_ _ Ha]. auto.
Qed.

(** X3: an outcome in the store is never overwritten or removed: whatever
    the request and the answers of the collaborators, a key that holds a
    truthy value (as every recorded outcome is) holds the same value after
    the run. *)
Theorem stored_outcome_is_kept w env v request σ key stored :
  db σ !! key = Some stored ->
  truthy stored = true ->
  db (snd (fetch w env v request σ)) !! key = Some stored.
Proof.
  intros Hs Ht.
  destruct (fetch_store w env v request σ)
    as [[-> _] | (address & rwa & offset & order & key' & data & Hf & _ & _ & ->)];
    [exact Hs|].
  destruct Hf as [_ _ Ha].
  destruct (decide (key' = key)) as [->|Hne].
  - rewrite Hs in Ha. cbn in Ha. congruence.
  - now rewrite lookup_insert_ne.
Qed.

Lemma stored_outcome_is_kept_witness :
  db (snd (fetch example_pool sample_env Direct
             (pay_request (pay_body sample_address (JNum 100) (JNum 0) (JStr "order-2")))
             settled_sys)) !! "order-1" = Some stored_outcome.
Proof.
  apply stored_outcome_is_kept; reflexivity.
Defined.

Lemma pool_reads_no_transfer env v c a to amount :
  ~ In (WriteContract c a to amount) (pool_reads env v).
Proof. destruct v; cbn; intuition discriminate. Qed.

(** The calls of a settlement: either no transfer among them, or the lookup
    and the reads followed by the one transfer and at most the record. *)
Lemma settlement_transfer w env v address rwa_amount offset key σ :
  exists calls,
    log (snd (settlement w env v address rwa_amount offset key σ)) = log σ ++ calls
    /\ ((forall c a to amount, ~ In (WriteContract c a to amount) calls)
        \/ exists account s m tail,
             privateKeyToAccount w (PRIVATE_KEY env) = Ok account
             /\ quoted w env v rwa_amount = Ok s
             /\ multiplier w offset = Ok m
             /\ calls = KvGet key :: pool_reads env v
                        ++ WriteContract (walletClient env account)
                             (ALX_CONTRACT_ADDRESS env) address (apply_offset s m)
                           :: tail
             /\ (tail = [] \/ exists outcome, tail = [KvPut key outcome])).
Proof.
  unfold settlement.
  assert (Hno : forall c a to amount,
            ~ In (WriteContract c a to amount) (KvGet key :: pool_reads env v)).
  { intros c a to amount [H|H]; [discriminate|].
    now apply pool_reads_no_transfer in H. }
  destruct (privateKeyToAccount w (PRIVATE_KEY env)) as [account|e].
  2:{ exists [KvGet key]. split; [reflexivity|]. left.
      intros c a to amount [H|[]]. discriminate. }
  destruct (quoted w env v rwa_amount) as [s|e];
    [|exists (KvGet key :: pool_reads env v); split; [reflexivity|now left]].
  destruct (multiplier w offset) as [m|e];
    [|exists (KvGet key :: pool_reads env v); split; [reflexivity|now left]].
  cbn zeta. destruct (rpc_transfer _ _ _ _ _) as [txHash|e].
  2:{ eexists. split; [reflexivity|]. right. exists account, s, m, [].
      repeat split; auto. }
  destruct (kv_put_fault _ _ _);
    (eexists; split; [reflexivity|]; right; eexists account, s, m, [_];
     repeat split; eauto).
Qed.

(** X4: a transfer is only ever submitted for a fresh order, on the ALX
    contract, from the account derived from [PRIVATE_KEY], to the [address]
    field of the body as it came, and for the amount the quote and the offset
    give; no run submits any other transfer. *)
Theorem transfer_is_the_computed_one w env v request σ :
  exists calls,
    log (snd (fetch w env v request σ)) = log σ ++ calls
    /\ forall c a to amount,
         In (WriteContract c a to amount) calls ->
         exists address rwa_amount offset order key account s m,
           FreshOrder w env request σ address rwa_amount offset order key
           /\ privateKeyToAccount w (PRIVATE_KEY env) = Ok account
           /\ quoted w env v rwa_amount = Ok s
           /\ multiplier w offset = Ok m
           /\ c = walletClient env account
           /\ a = ALX_CONTRACT_ADDRESS env
           /\ to = address
           /\ amount = apply_offset s m.
Proof.
  destruct (fetch_cases w env v request σ)
    as [(r & calls & -> & Hcalls & _) | (address & rwa & offset & order & key & Hf)].
  - exists calls. split; [reflexivity|]. intros c a to amount Hin.
    destruct Hcalls as [-> | [key ->]]; cbn in Hin; intuition discriminate.
  - rewrite (fetch_fresh _ _ _ _ _ _ _ _ _ _ Hf).
    destruct (settlement_transfer w env v address rwa offset key σ)
      as (calls & Hlog & [Hno | (account & s & m & tail & Ha & Hq & Hm & -> & Htail)]).
    + exists calls. split; [exact Hlog|]. intros c a to amount Hin.
      now apply Hno in Hin.
    + eexists. split; [exact Hlog|]. intros c a to amount [Hin|Hin]; [discriminate|].
      apply in_app_or in Hin as [Hin|[Hin|Hin]].
      * now apply pool_reads_no_transfer in Hin.
      * injection Hin as <- <- <- <-.
        exists address, rwa, offset, order, key, account, s, m. repeat split; auto.
        all: apply Hf.
      * destruct Htail as [-> | [outcome ->]]; cbn in Hin; intuition discriminate.
Qed.

(** ** The status route *)

(** The two answers of the status route when the read succeeds. *)
Lemma status_route_reads_the_store_aux w env v request σ order :
  unauthorized env (header_X_API_KEY request) = false ->
  method request = "GET" ->
  pathname request = "/status" ->
  searchParam_order request = Some order ->
  order <> "" ->
  (forall record,
     kv_get_fault w order = None ->
     db σ !! order = Some record -> truthy record = true ->
     fetch w env v request σ
     = (Ok (jsonResp (P_record record) 200), logged σ [KvGet order]))
  /\ (kv_get_fault w order = None ->
      db σ !! order = None ->
      fetch w env v request σ
      = (Ok (jsonResp P_not_found 404), logged σ [KvGet order])).
Proof.
  intros Hauth Hm Hp Ho Hne. unfold fetch, status_route, DB_get.
  rewrite Hauth, Hm, Hp, Ho. cbn [String.eqb Ascii.eqb Bool.eqb andb].
  destruct (String.eqb_spec order "") as [|_]; [contradiction|].
  run_monad. split.
  - intros record -> Hs Ht. cbn [db log]. rewrite Hs. cbn. now rewrite Ht.
  - intros -> Hs. cbn [db log]. now rewrite Hs.
Qed.



(** ** Successful settlements *)

(** X6: when every stage of a fresh payment succeeds, the handler makes
    exactly the lookup, the pool reads, one transfer and one store write, in
    that order; it answers 200 with the outcome and the store holds that
    outcome under the order's key.  The outcome carries the transaction hash
    the node returned, the amount as formatted by [formatUnits] with 18
    decimals, the [rwa_amount] of the body as it came and the time of
    [Date.now()]. *)
Theorem settlement_records_its_outcome
    w env v request σ address rwa_amount offset order key account s m txHash :
  FreshOrder w env request σ address rwa_amount offset order key ->
  privateKeyToAccount w (PRIVATE_KEY env) = Ok account ->
  quoted w env v rwa_amount = Ok s ->
  multiplier w offset = Ok m ->
  rpc_transfer w (walletClient env account) (ALX_CONTRACT_ADDRESS env) address
    (apply_offset s m) = Ok txHash ->
  kv_put_fault w key (resultData w txHash (apply_offset s m) rwa_amount) = None ->
  exists fields,
    let outcome := JObj fields in
    fetch w env v request σ
    = (Ok (jsonResp (P_success outcome) 200),
       {| db := <[key := outcome]> (db σ);
          log := log σ ++ settlement_calls env v key account address
                            (apply_offset s m) outcome |})
    /\ db (snd (fetch w env v request σ)) !! key = Some outcome
    /\ lookup_field "status" fields = JStr "success"
    /\ lookup_field "tx_hash" fields = JStr txHash
    /\ lookup_field "alx_sent" fields = JStr (formatUnits w (apply_offset s m) 18)
    /\ lookup_field "rwa_value" fields = rwa_amount
    /\ lookup_field "timestamp" fields = JNum (Date_now w).
Proof.
  intros Hf Ha Hq Hm Ht Hput. rewrite (fetch_fresh _ _ _ _ _ _ _ _ _ _ Hf).
  unfold settlement. rewrite Ha, Hq, Hm. cbn zeta. rewrite Ht, Hput.
  eexists. cbn zeta. split; [reflexivity|]. split.
  - cbn [snd db]. apply lookup_insert_eq.
  - repeat split; reflexivity.
Qed.

Lemma settlement_records_its_outcome_witness :
  exists fields,
    db (snd (fetch example_pool sample_env Direct (sample_pay (JNum 100) (JNum 0))
               empty_sys)) !! "order-1" = Some (JObj fields)
    /\ lookup_field "tx_hash" fields = JStr "0xTxHash"
    /\ lookup_field "alx_sent" fields = JStr "200"
    /\ lookup_field "rwa_value" fields = JNum 100.
Proof.
  destruct (settlement_records_its_outcome example_pool sample_env Direct
              (sample_pay (JNum 100) (JNum 0)) empty_sys sample_address (JNum 100)
              (JNum 0) (JStr "order-1") "order-1" "0xSigner" (200 * E18) 10000
              "0xTxHash")
    as (fields & _ & Hdb & _ & Htx & Hsent & Hrwa & _); try reflexivity.
  - apply sample_pay_fresh; reflexivity.
  - exists fields. rewrite Hsent in *. repeat split; assumption.
Defined.

(** The settlement answers with a success only at the end of its last
    branch. *)
Lemma settlement_success w env v address rwa_amount offset key σ data σ' :
  settlement w env v address rwa_amount offset key σ
  = (Ok (jsonResp (P_success data) 200), σ') ->
  exists account s m txHash,
    privateKeyToAccount w (PRIVATE_KEY env) = Ok account
    /\ quoted w env v rwa_amount = Ok s
    /\ multiplier w offset = Ok m
    /\ rpc_transfer w (walletClient env account) (ALX_CONTRACT_ADDRESS env) address
         (apply_offset s m) = Ok txHash
    /\ data = resultData w txHash (apply_offset s m) rwa_amount
    /\ kv_put_fault w key data = None
    /\ σ' = {| db := <[key := data]> (db σ);
               log := log σ ++ settlement_calls env v key account address
                                 (apply_offset s m) data |}.
Proof.
  unfold settlement.
  destruct (privateKeyToAccount w (PRIVATE_KEY env)) as [account|e]; [|discriminate].
  destruct (quoted w env v rwa_amount) as [s|e]; [|discriminate].
  destruct (multiplier w offset) as [m|e]; [|discriminate].
  cbn zeta.
  destruct (rpc_transfer _ _ _ _ _) as [txHash|e] eqn:Ht; [|discriminate].
  destruct (kv_put_fault _ _ _) eqn:Hput; [discriminate|].
  intros [= <- <-]. exists account, s, m, txHash. repeat split; auto.
Qed.

(** X7: a 200 success answer is only given after the transfer was
    submitted and accepted and the outcome was written: the answered data is
    the outcome built from the returned transaction hash, it is in the store
    under the order's key, and the run submitted exactly one transfer, to the
    body's [address] for the computed amount. *)
Theorem success_means_submitted_and_recorded w env v request σ data :
  fst (fetch w env v request σ) = Ok (jsonResp (P_success data) 200) ->
  exists address rwa_amount offset order key account s m txHash,
    FreshOrder w env request σ address rwa_amount offset order key
    /\ quoted w env v rwa_amount = Ok s
    /\ multiplier w offset = Ok m
    /\ rpc_transfer w (walletClient env account) (ALX_CONTRACT_ADDRESS env) address
         (apply_offset s m) = Ok txHash
    /\ data = resultData w txHash (apply_offset s m) rwa_amount
    /\ db (snd (fetch w env v request σ)) !! key = Some data
    /\ transfers (log (snd (fetch w env v request σ)))
       = transfers (log σ) ++ [(address, apply_offset s m)].
Proof.
  intros Hr.
  destruct (fetch_cases w env v request σ)
    as [(r & calls & Hrun & _ & Hno) | (address & rwa & offset & order & key & Hf)].
  - rewrite Hrun in Hr. now apply Hno in Hr.
  - pose proof (fetch_fresh _ _ v _ _ _ _ _ _ _ Hf) as Hrun.
    destruct (settlement w env v address rwa offset key σ) as [r σ'] eqn:Hs.
    rewrite Hrun in Hr. cbn in Hr. subst r.
    destruct (settlement_success _ _ _ _ _ _ _ _ _ _ Hs)
      as (account & s & m & txHash & Ha & Hq & Hm & Ht & Hd & _ & Hσ).
    exists address, rwa, offset, order, key, account, s, m, txHash.
    split; [exact Hf|]. split; [exact Hq|]. split; [exact Hm|]. split; [exact Ht|].
    split; [exact Hd|]. split.
    + rewrite Hrun, Hσ. cbn [snd db]. apply lookup_insert_eq.
    + exact (fetch_transfers _ _ _ _ _ _ _ _ _ _ _ _ _ Hf Ha Hq Hm).
Qed.

Lemma sample_pay_succeeds :
  fetch example_pool sample_env Direct (sample_pay (JNum 100) (JNum 0)) empty_sys
  = (Ok (jsonResp (P_success sample_outcome) 200), settled_once).
Proof.
  rewrite (fetch_fresh _ _ _ _ _ _ _ _ _ _
             (sample_pay_fresh example_pool (JNum 100) (JNum 0) eq_refl eq_refl)).
  vm_compute. reflexivity.
Qed.

Lemma success_means_submitted_and_recorded_witness :
  let run := fetch example_pool sample_env Direct (sample_pay (JNum 100) (JNum 0))
               empty_sys in
  fst run = Ok (jsonResp (P_success sample_outcome) 200)
  /\ exists address key s m,
       db (snd run) !! key = Some sample_outcome
       /\ transfers (log (snd run))
          = transfers (log empty_sys) ++ [(address, apply_offset s m)].
Proof.
  cbv zeta.
  assert (Hr : fst (fetch example_pool sample_env Direct (sample_pay (JNum 100) (JNum 0))
                      empty_sys) = Ok (jsonResp (P_success sample_outcome) 200))
    by now rewrite sample_pay_succeeds.
  split; [exact Hr|].
  destruct (success_means_submitted_and_recorded example_pool sample_env Direct
              (sample_pay (JNum 100) (JNum 0)) empty_sys sample_outcome Hr)
    as (address & rwa & offset & order & key & account & s & m & txHash
        & _ & _ & _ & _ & _ & Hdb & Ht).
  exists address, key, s, m. split; [exact Hdb|exact Ht].
Defined.

(** X8: pay then status.  Once a payment whose [order] is a string has been
    answered with a success, an authenticated [GET /status] for that order
    answers 200 with the very outcome the payment returned, after one store
    read. *)
Theorem recorded_outcome_is_served_by_status
    w env v request σ address rwa_amount offset order key data σ' w' v' request' :
  FreshOrder w env request σ address rwa_amount offset (JStr order) key ->
  fetch w env v request σ = (Ok (jsonResp (P_success data) 200), σ') ->
  unauthorized env (header_X_API_KEY request') = false ->
  method request' = "GET" ->
  pathname request' = "/status" ->
  searchParam_order request' = Some order ->
  kv_get_fault w' order = None ->
  fetch w' env v' request' σ'
  = (Ok (jsonResp (P_record data) 200), logged σ' [KvGet order]).
Proof.
  intros Hf Hrun Hauth Hm Hp Ho Hl.
  assert (Hkey : key = order).
  { destruct Hf as [[_ _ Hk] _ _]. unfold ToString in Hk. congruence. }
  subst key.
  assert (Hne : order <> "").
  { destruct Hf as [[_ Hmiss _] _ _]. unfold missing_parameters in Hmiss.
    intros ->. unfold truthy in Hmiss. cbn in Hmiss.
    rewrite ?orb_true_r in Hmiss. discriminate. }
  rewrite (fetch_fresh _ _ _ _ _ _ _ _ _ _ Hf) in Hrun.
  destruct (settlement_success _ _ _ _ _ _ _ _ _ _ Hrun)
    as (account & s & m & txHash & _ & _ & _ & _ & Hd & _ & Hσ).
  destruct (status_route_reads_the_store_aux w' env v' request' σ' order
              Hauth Hm Hp Ho Hne) as [Hfound _].
  apply Hfound; [exact Hl| |].
  - rewrite Hσ. cbn [db]. apply lookup_insert_eq.
  - now rewrite Hd.
Qed.

Lemma recorded_outcome_is_served_by_status_witness :
  fetch example_pool sample_env Oracle (status_request (Some "order-1")) settled_once
  = (Ok (jsonResp (P_record sample_outcome) 200), logged settled_once [KvGet "order-1"]).
Proof.
  exact (recorded_outcome_is_served_by_status example_pool sample_env Direct
           (sample_pay (JNum 100) (JNum 0)) empty_sys sample_address (JNum 100) (JNum 0)
           "order-1" "order-1" sample_outcome settled_once example_pool Oracle
           (status_request (Some "order-1"))
           (sample_pay_fresh example_pool (JNum 100) (JNum 0) eq_refl eq_refl)
           sample_pay_succeeds eq_refl eq_refl eq_refl eq_refl eq_refl).
Defined.

(** X9: no order is settled twice in a row.  Once a payment has been
    answered with a success, the same request sent again (in any world in
    which the lookup works) is answered 200 "Duplicate request" with the
    recorded outcome; it makes one store read, submits no transfer and leaves
    the store as it is. *)
Theorem repeated_payment_is_not_settled_again
    w env v request σ address rwa_amount offset order key data σ' w' :
  FreshOrder w env request σ address rwa_amount offset order key ->
  fetch w env v request σ = (Ok (jsonResp (P_success data) 200), σ') ->
  ToString w' order = Ok key ->
  kv_get_fault w' key = None ->
  fetch w' env v request σ'
  = (Ok (jsonResp (P_duplicate data) 200), logged σ' [KvGet key])
  /\ transfers (log (snd (fetch w' env v request σ'))) = transfers (log σ')
  /\ db (snd (fetch w' env v request σ')) = db σ'.
Proof.
  intros Hf Hrun Hk Hl.
  assert (Hv : ValidPay w' env request address rwa_amount offset order key).
  { destruct Hf as [[Hc Hm _] _ _]. now constructor. }
  destruct (settled_order_becomes_duplicate w env v request σ address rwa_amount offset
              order key data σ' w' Hf Hrun Hv Hl) as [_ Hdup].
  rewrite Hdup. split; [reflexivity|]. split; [|reflexivity].
  cbn [snd logged log]. rewrite transfers_app. cbn. now rewrite app_nil_r.
Qed.

Lemma repeated_payment_is_not_settled_again_witness :
  fetch example_pool sample_env Direct (sample_pay (JNum 100) (JNum 0)) settled_once
  = (Ok (jsonResp (P_duplicate sample_outcome) 200), logged settled_once [KvGet "order-1"])
  /\ transfers (log (snd (fetch example_pool sample_env Direct
                            (sample_pay (JNum 100) (JNum 0)) settled_once)))
     = transfers (log settled_once)
  /\ db (snd (fetch example_pool sample_env Direct
                 (sample_pay (JNum 100) (JNum 0)) settled_once))
     = db settled_once.
Proof.
  exact (repeated_payment_is_not_settled_again example_pool sample_env Direct
           (sample_pay (JNum 100) (JNum 0)) empty_sys sample_address (JNum 100)
           (JNum 0) (JStr "order-1") "order-1" sample_outcome settled_once example_pool
           (sample_pay_fresh example_pool (JNum 100) (JNum 0) eq_refl eq_refl)
           sample_pay_succeeds eq_refl eq_refl).
Defined.

(** X10: the record step does not undo the transfer.  When the transfer
    was accepted and the store write then fails, the answer is 500 although
    the transfer has been submitted; the store is unchanged, so the order is
    still fresh, and the same request sent again to a world where every stage
    succeeds submits a second transfer for the same order. *)
Theorem failed_record_leaves_order_payable
    w env v request σ address rwa_amount offset order key account s m txHash e :
  FreshOrder w env request σ address rwa_amount offset order key ->
  privateKeyToAccount w (PRIVATE_KEY env) = Ok account ->
  quoted w env v rwa_amount = Ok s ->
  multiplier w offset = Ok m ->
  rpc_transfer w (walletClient env account) (ALX_CONTRACT_ADDRESS env) address
    (apply_offset s m) = Ok txHash ->
  kv_put_fault w key (resultData w txHash (apply_offset s m) rwa_amount) = Some e ->
  let run := fetch w env v request σ in
  fst run = Ok (jsonResp (P_failure e) 500)
  /\ transfers (log (snd run)) = transfers (log σ) ++ [(address, apply_offset s m)]
  /\ db (snd run) = db σ
  /\ forall w' account' s' m',
       FreshOrder w' env request σ address rwa_amount offset order key ->
       privateKeyToAccount w' (PRIVATE_KEY env) = Ok account' ->
       quoted w' env v rwa_amount = Ok s' ->
       multiplier w' offset = Ok m' ->
       transfers (log (snd (fetch w' env v request (snd run))))
       = transfers (log σ) ++ [(address, apply_offset s m); (address, apply_offset s' m')].
Proof.
  intros Hf Ha Hq Hm Ht Hput. cbv zeta.
  pose proof (fetch_transfers _ _ _ _ _ _ _ _ _ _ _ _ _ Hf Ha Hq Hm) as Htr.
  rewrite (fetch_fresh _ _ _ _ _ _ _ _ _ _ Hf) in *.
  unfold settlement in *. rewrite Ha, Hq, Hm in *. cbn zeta in *. rewrite Ht, Hput in *.
  cbn [fst snd] in *. split; [reflexivity|]. split; [exact Htr|]. split; [reflexivity|].
  intros w' account' s' m' Hf' Ha' Hq' Hm'.
  rewrite (fetch_transfers w' env v request _ address rwa_amount offset order key
             account' s' m' (fresh_after_calls _ _ _ _ _ _ _ _ _ _ Hf') Ha' Hq' Hm').
  rewrite Htr, <- app_assoc. reflexivity.
Qed.

Lemma sample_quote : quoted example_pool sample_env Direct (JNum 100) = Ok (200 * E18).
Proof. vm_compute. reflexivity. Qed.

Lemma failed_record_leaves_order_payable_witness :
  let run := fetch failing_store sample_env Direct (sample_pay (JNum 100) (JNum 0))
               empty_sys in
  fst run
  = Ok (jsonResp (P_failure (Raised "KV PUT failed: 429 Too Many Requests")) 500)
  /\ transfers (log (snd run))
     = transfers (log empty_sys) ++ [(sample_address, apply_offset (200 * E18) 10000)]
  /\ db (snd run) = db empty_sys.
Proof.
  cbv zeta.
  destruct (failed_record_leaves_order_payable failing_store sample_env Direct
              (sample_pay (JNum 100) (JNum 0)) empty_sys sample_address (JNum 100)
              (JNum 0) (JStr "order-1") "order-1" "0xSigner" (200 * E18) 10000
              "0xTxHash" (Raised "KV PUT failed: 429 Too Many Requests")
              (sample_pay_fresh failing_store (JNum 100) (JNum 0) eq_refl eq_refl)
              eq_refl sample_quote eq_refl eq_refl eq_refl) as (Hr & Ht & Hdb & _).
  split; [exact Hr|]. split; [exact Ht|exact Hdb].
Defined.

(** ** Edge cases of the pricing and of the offset *)

(** X11: only the ALX reserve is checked for zero.  When the pool holds
    ALX but the other reserve is zero, the division throws: a fresh payment
    is answered 500 with the BigInt division-by-zero error after the lookup
    and the reads, and no transfer is submitted, in both versions. *)
Theorem zero_reference_reserve_is_a_division_by_zero
    w env v request σ address rwa_amount offset order key account
    reserves token0 answer alxReserve scaled :
  FreshOrder w env request σ address rwa_amount offset order key ->
  privateKeyToAccount w (PRIVATE_KEY env) = Ok account ->
  PoolReads w env v reserves token0 answer ->
  price_resolver env reserves token0 = Ok (alxReserve, 0) ->
  rwaAmountBigInt w rwa_amount = Ok scaled ->
  fetch w env v request σ
  = (Ok (jsonResp (P_failure RangeError_DivisionByZero) 500),
     logged σ (KvGet key :: pool_reads env v)).
Proof.
  intros Hf Ha Hp Hr Hs. rewrite (fetch_fresh _ _ _ _ _ _ _ _ _ _ Hf).
  unfold settlement. rewrite Ha, (quoted_convert _ _ _ _ _ _ _ _ _ _ Hp Hr Hs).
  now destruct v.
Qed.

Lemma zero_reference_reserve_is_a_division_by_zero_witness :
  fetch one_sided_pool sample_env Oracle (sample_pay (JNum 700) (JNum 0)) empty_sys
  = (Ok (jsonResp (P_failure RangeError_DivisionByZero) 500),
     logged empty_sys (KvGet "order-1" :: pool_reads sample_env Oracle)).
Proof.
  apply (zero_reference_reserve_is_a_division_by_zero one_sided_pool sample_env Oracle
           (sample_pay (JNum 700) (JNum 0)) empty_sys sample_address (JNum 700) (JNum 0)
           (JStr "order-1") "order-1" "0xSigner" (5 * E18, 0, 1700000000) alx_lowercase
           14000000 (5 * E18) (700 * E18)); try reflexivity.
  - apply sample_pay_fresh; reflexivity.
  - apply plain_world_reads.
Defined.

(** X12: an offset that is not a number is not caught by the field check.
    When [Number(offset)] is NaN or an infinity, the pool is read and the
    quote computed first; [BigInt] then throws, the answer is 500 and no
    transfer is submitted. *)
Theorem non_numeric_offset_fails_after_pricing
    w env v request σ address rwa_amount offset order key account s x :
  FreshOrder w env request σ address rwa_amount offset order key ->
  privateKeyToAccount w (PRIVATE_KEY env) = Ok account ->
  quoted w env v rwa_amount = Ok s ->
  Number w offset = Ok x ->
  x = nan \/ x = infinity \/ x = neg_infinity ->
  fetch w env v request σ
  = (Ok (jsonResp (P_failure RangeError_NotAnInteger) 500),
     logged σ (KvGet key :: pool_reads env v)).
Proof.
  intros Hf Ha Hq Hn Hx. rewrite (fetch_fresh _ _ _ _ _ _ _ _ _ _ Hf).
  unfold settlement. rewrite Ha, Hq, (multiplier_Number _ _ _ Hn).
  now destruct Hx as [-> | [-> | ->]].
Qed.

Lemma non_numeric_offset_fails_after_pricing_witness :
  missing_parameters sample_address (JNum 100) (JStr "ten") (JStr "order-1") = false
  /\ fetch example_pool sample_env Direct (sample_pay (JNum 100) (JStr "ten")) empty_sys
     = (Ok (jsonResp (P_failure RangeError_NotAnInteger) 500),
        logged empty_sys (KvGet "order-1" :: pool_reads sample_env Direct)).
Proof.
  split; [reflexivity|].
  apply (non_numeric_offset_fails_after_pricing example_pool sample_env Direct
           (sample_pay (JNum 100) (JStr "ten")) empty_sys sample_address (JNum 100)
           (JStr "ten") (JStr "order-1") "order-1" "0xSigner" (200 * E18) nan);
    try reflexivity.
  - apply sample_pay_fresh; reflexivity.
  - now left.
Defined.

(** X13: [null], [false] and [0] are offsets of zero.  Each of them passes
    the field check (only [undefined] is missing), gives the multiplier 10000
    and leaves the amount as quoted: the transfer submitted is for the quote
    itself. *)
Theorem zero_like_offset_keeps_the_quote
    w env v request σ address rwa_amount offset order key account s :
  FreshOrder w env request σ address rwa_amount offset order key ->
  privateKeyToAccount w (PRIVATE_KEY env) = Ok account ->
  quoted w env v rwa_amount = Ok s ->
  offset = JNull \/ offset = JBool false \/ offset = JNum 0 ->
  is_undefined offset = false
  /\ multiplier w offset = Ok 10000
  /\ transfers (log (snd (fetch w env v request σ))) = transfers (log σ) ++ [(address, s)].
Proof.
  intros Hf Ha Hq Ho.
  assert (Hm : multiplier w offset = Ok 10000).
  { apply multiplier_zero_offset. now destruct Ho as [-> | [-> | ->]]. }
  split; [now destruct Ho as [-> | [-> | ->]]|]. split; [exact Hm|].
  rewrite (fetch_transfers _ _ _ _ _ _ _ _ _ _ _ _ _ Hf Ha Hq Hm).
  unfold apply_offset. now rewrite Z.quot_mul.
Qed.

Lemma zero_like_offset_keeps_the_quote_witness :
  transfers (log (snd (fetch example_pool sample_env Direct
                         (sample_pay (JNum 100) JNull) empty_sys)))
  = transfers (log empty_sys) ++ [(sample_address, 200 * E18)].
Proof.
  apply (zero_like_offset_keeps_the_quote example_pool sample_env Direct
           (sample_pay (JNum 100) JNull) empty_sys sample_address (JNum 100) JNull
           (JStr "order-1") "order-1" "0xSigner" (200 * E18)); try reflexivity.
  - apply sample_pay_fresh; reflexivity.
  - now left.
Defined.

(** X14: the conversion only depends on the ratio of the reserves.
    Multiplying both reserves by the same non-zero factor changes neither the
    amount computed nor whether the division throws, in both versions. *)
Theorem conversion_depends_on_the_reserve_ratio v scaled answer alxReserve usdtReserve k :
  k <> 0 ->
  convert v scaled answer (k * alxReserve) (k * usdtReserve)
  = convert v scaled answer alxReserve usdtReserve.
Proof.
  intros Hk.
  assert (H : forall a, bigint_div (a * (k * alxReserve)) (k * usdtReserve)
                        = bigint_div (a * alxReserve) usdtReserve).
  { intros a. unfold bigint_div.
    destruct (Z.eqb_spec usdtReserve 0) as [->|Hu].
    - now rewrite Z.mul_0_r.
    - destruct (Z.eqb_spec (k * usdtReserve) 0) as [H0|_]; [nia|].
      f_equal. replace (a * (k * alxReserve)) with (k * (a * alxReserve)) by ring.
      now apply Z.quot_mul_cancel_l. }
  destruct v; unfold convert, convert_direct, convert_oracle; apply H.
Qed.

Lemma conversion_depends_on_the_reserve_ratio_witness :
  convert Direct (100 * E18) 0 (3 * 2000000) (3 * 1000000)
  = convert Direct (100 * E18) 0 2000000 1000000.
Proof.
  apply conversion_depends_on_the_reserve_ratio. discriminate.
Defined.

(** X15: the oracle version with a feed answering exactly 1 (10^8 at 8
    decimals) quotes what the direct version quotes from the same pool. *)
Theorem oracle_at_par_quotes_as_direct w env reserves token0 rwa_amount :
  PoolReads w env Oracle reserves token0 100000000 ->
  quoted w env Oracle rwa_amount = quoted w env Direct rwa_amount.
Proof.
  intros Hp.
  assert (Hd : PoolReads w env Direct reserves token0 100000000).
  { destruct Hp as (Hr & Ht & _). now repeat split. }
  rewrite (quoted_reads _ _ _ _ _ _ rwa_amount Hp), (quoted_reads _ _ _ _ _ _ rwa_amount Hd).
  destruct (price_resolver env reserves token0) as [[alx usdt]|e]; [|reflexivity].
  cbn. destruct (rwaAmountBigInt w rwa_amount) as [scaled|e]; [|reflexivity].
  cbn. unfold convert_oracle, convert_direct. now rewrite Z.quot_mul.
Qed.

Lemma oracle_at_par_quotes_as_direct_witness :
  quoted par_feed sample_env Oracle (JNum 100) = quoted par_feed sample_env Direct (JNum 100).
Proof.
  apply (oracle_at_par_quotes_as_direct par_feed sample_env
           (2000000 * E18, 1000000 * E18, 1700000000) alx_lowercase).
  apply plain_world_reads.
Defined.

(** ** Bodies that are not an object *)

(** X16: an authenticated [POST /pay] whose body is not a JSON object makes
    no call at all.  A body that does not parse is answered 500 with the
    parser's error, [null] is answered 500 (destructuring it throws), and a
    number, a string, a boolean or an array is answered 400 "Missing
    parameters". *)
Theorem body_that_is_not_an_object_makes_no_call w env v request σ :
  unauthorized env (header_X_API_KEY request) = false ->
  method request = "POST" ->
  pathname request = "/pay" ->
  (forall e, json request = Throw e ->
     fetch w env v request σ = (Ok (jsonResp (P_failure e) 500), σ))
  /\ (json request = Ok JNull ->
      fetch w env v request σ = (Ok (jsonResp (P_failure TypeError_Destructure) 500), σ))
  /\ (forall body,
        json request = Ok body ->
        body <> JNull -> body <> JUndefined -> (forall fields, body <> JObj fields) ->
        fetch w env v request σ = (Ok (jsonResp (P_error "Missing parameters") 400), σ)).
Proof.
  intros Hauth Hm Hp. unfold fetch, pay. rewrite Hauth, Hm, Hp.
  cbn [String.eqb Ascii.eqb Bool.eqb andb]. run_monad. repeat split.
  - now intros e ->.
  - now intros ->.
  - intros body -> H1 H2 H3. destruct body; try reflexivity; try contradiction.
    now destruct (H3 fields).
Qed.

Lemma body_that_is_not_an_object_makes_no_call_witness :
  fetch example_pool sample_env Direct (pay_request (JArr [JNum 100])) settled_sys
  = (Ok (jsonResp (P_error "Missing parameters") 400), settled_sys).
Proof.
  apply (proj2 (proj2 (body_that_is_not_an_object_makes_no_call example_pool sample_env
                         Direct (pay_request (JArr [JNum 100])) settled_sys
                         eq_refl eq_refl eq_refl))
           (JArr [JNum 100]) eq_refl); discriminate.
Defined.

(** ** Configuration and store faults *)

(** X17: [USDT_CONTRACT_ADDRESS] is configured but never consulted: the
    handler behaves the same whatever its value, so the reserve that is not
    ALX is taken for USDT without a check.  The direct version likewise never
    consults [ETH_RPC] and [CHAINLINK_ORACLE_ADDRESS]. *)
Theorem unused_settings_do_not_matter w env v request σ usdt eth_rpc oracle :
  fetch w (with_usdt_address env usdt) v request σ = fetch w env v request σ
  /\ fetch w (with_oracle_settings env eth_rpc oracle) Direct request σ
     = fetch w env Direct request σ.
Proof.
  split.
  - destruct v; reflexivity.
  - reflexivity.
Qed.

(** X18: on [POST /pay] a fault of the store read, or an [order] that
    cannot be turned into a key, is answered 500 before the chain is touched:
    the only call made is the lookup, respectively none. *)
Theorem lookup_fault_stops_before_the_chain
    w env v request σ address rwa_amount offset order :
  PayCall env request address rwa_amount offset order ->
  missing_parameters address rwa_amount offset order = false ->
  (forall key e,
     ToString w order = Ok key -> kv_get_fault w key = Some e ->
     fetch w env v request σ
     = (Ok (jsonResp (P_failure e) 500), logged σ [KvGet key]))
  /\ (forall e,
        ToString w order = Throw e ->
        fetch w env v request σ = (Ok (jsonResp (P_failure e) 500), σ)).
Proof.
  intros Hc Hf. rewrite (fetch_call _ _ _ _ _ _ _ _ _ Hc), Hf. split.
  - now intros key e -> ->.
  - now intros e ->.
Qed.

Lemma lookup_fault_stops_before_the_chain_witness :
  fetch unreadable_store sample_env Direct (sample_pay (JNum 100) (JNum 0)) empty_sys
  = (Ok (jsonResp (P_failure (Raised "KV GET failed: 500 Internal Server Error")) 500),
     logged empty_sys [KvGet "order-1"]).
Proof.
  apply (proj1 (lookup_fault_stops_before_the_chain unreadable_store sample_env Direct
                  (sample_pay (JNum 100) (JNum 0)) empty_sys sample_address (JNum 100)
                  (JNum 0) (JStr "order-1") (sample_pay_call (JNum 100) (JNum 0))
                  eq_refl)); reflexivity.
Defined.
